(** * smartio: compression formats and compression-aware file I/O

    A shallow embedding of [smartio/_main.py] (classes [CompressionFormat]
    and [SmartIo]) together with the exception classes of
    [smartio/_errors.py] that they raise.

    Python values are modelled as follows.
    - [str] is [string]; a character is a code point below 256.
    - [pathlib.Path] is the record [PurePath] (POSIX flavour): a root and
      the list of normalised components.
    - A raised exception is the [Raise] case of [result].
    - The file system is a finite map from normalised paths to nodes; it
      is threaded through the I/O functions explicitly, together with the
      clock and the file object that is open for writing.
    - What the source reaches through [datetime], [pandas] and [lz4] is
      the record [runtime]; [cpython] is the instance with the standard
      library's [isoformat]. *)

From Stdlib Require Import String Ascii List Bool Arith ZArith Lia.
From Stdlib Require Import Permutation DecimalString.
From stdpp Require Import gmap strings list.

Local Open Scope string_scope.

(** ** Python [str] operations *)

Module PyStr.

Definition chars (s : string) : list ascii := list_ascii_of_string s.
Definition of_chars (l : list ascii) : string := string_of_list_ascii l.

(** [len(s)] *)
Definition len (s : string) : nat := String.length s.

(** [s.startswith(p)] *)
Definition startswith (s p : string) : bool :=
  bool_decide (chars p `prefix_of` chars s).

(** [s.endswith(p)] *)
Definition endswith (s p : string) : bool :=
  bool_decide (chars p `suffix_of` chars s).

(** [s.count(c)] for a one-character [c] *)
Fixpoint count (s : string) (c : ascii) : nat :=
  match s with
  | EmptyString => 0
  | String a s' => (if Ascii.eqb a c then 1 else 0) + count s' c
  end.

(** [c in s] for a one-character [c] *)
Fixpoint contains (s : string) (c : ascii) : bool :=
  match s with
  | EmptyString => false
  | String a s' => Ascii.eqb a c || contains s' c
  end.

(** [s.rfind(c)] for a one-character [c]: the highest index, or [-1]. *)
Fixpoint rfind_from (s : string) (c : ascii) (i : Z) (best : Z) : Z :=
  match s with
  | EmptyString => best
  | String a s' => rfind_from s' c (i + 1) (if Ascii.eqb a c then i else best)
  end.

Definition rfind (s : string) (c : ascii) : Z := rfind_from s c 0 (-1).

(** [s[i:]] for [0 <= i] *)
Definition slice_from (s : string) (i : nat) : string :=
  of_chars (drop i (chars s)).

(** [s[:-k]].  Python reads [s[:-0]] as [s[:0]], the empty string. *)
Definition slice_to_neg (s : string) (k : nat) : string :=
  match k with
  | O => ""
  | _ => of_chars (take (len s - k) (chars s))
  end.

(** [s.replace(c, e)] for a one-character [c] and the empty string [e] *)
Fixpoint remove_char (s : string) (c : ascii) : string :=
  match s with
  | EmptyString => EmptyString
  | String a s' =>
      if Ascii.eqb a c then remove_char s' c else String a (remove_char s' c)
  end.

(** [s.lstrip(c)] for a one-character [c] *)
Fixpoint lstrip_char (s : string) (c : ascii) : string :=
  match s with
  | EmptyString => EmptyString
  | String a s' => if Ascii.eqb a c then lstrip_char s' c else s
  end.

(** [s.split(c)] for a one-character separator: never the empty list. *)
Fixpoint split (s : string) (c : ascii) : list string :=
  match s with
  | EmptyString => [""]
  | String a s' =>
      if Ascii.eqb a c then "" :: split s' c
      else match split s' c with
           | [] => [String a ""]
           | w :: ws => String a w :: ws
           end
  end.

(** [e.join(l)] for the empty string [e] *)
Definition join (l : list string) : string := String.concat "" l.

(** [c.isspace()] on code points below 256. *)
Definition isspace (a : ascii) : bool :=
  let n := nat_of_ascii a in
  (((9 <=? n) && (n <=? 13)) || ((28 <=? n) && (n <=? 32))
   || (n =? 133) || (n =? 160))%nat.

(** [c.lower()] on code points below 256: A-Z, and the Latin-1 capitals
    U+00C0..U+00DE except the multiplication sign U+00D7. *)
Definition lower_char (a : ascii) : ascii :=
  let n := nat_of_ascii a in
  if (((65 <=? n) && (n <=? 90))
      || ((192 <=? n) && (n <=? 222) && negb (n =? 215)))%nat
  then ascii_of_nat (n + 32) else a.

Fixpoint lower (s : string) : string :=
  match s with
  | EmptyString => EmptyString
  | String a s' => String (lower_char a) (lower s')
  end.

Fixpoint lstrip (s : string) : string :=
  match s with
  | EmptyString => EmptyString
  | String a s' => if isspace a then lstrip s' else s
  end.

Definition rstrip (s : string) : string := String.rev (lstrip (String.rev s)).

(** [s.strip()] *)
Definition strip (s : string) : string := rstrip (lstrip s).

End PyStr.

(** ** Exceptions ([smartio/_errors.py] and the built-ins that reach callers) *)

Inductive exn : Type :=
| KeyError (key : string)
| ValueError (msg : string)
| TypeError (msg : string)
| AttributeError (msg : string)
| UnsupportedOperationError (msg : string)
| ReadPermissionsError (msg : string) (key : string)
| WritePermissionsError (msg : string) (key : string)
| FileNotFoundError
| PermissionError
| IsADirectoryError
| NoSpaceError
| BadStreamError.

(** [isinstance(e, OSError)]: the two permission classes of [_errors.py]
    derive from [OSError], as do the built-in file errors. *)
Definition is_OSError (e : exn) : bool :=
  match e with
  | ReadPermissionsError _ _ | WritePermissionsError _ _
  | FileNotFoundError | PermissionError | IsADirectoryError
  | NoSpaceError | BadStreamError => true
  | _ => false
  end.

Definition is_ReadPermissionsError (e : exn) : bool :=
  match e with ReadPermissionsError _ _ => true | _ => false end.

Definition is_WritePermissionsError (e : exn) : bool :=
  match e with WritePermissionsError _ _ => true | _ => false end.

Definition is_UnsupportedOperationError (e : exn) : bool :=
  match e with UnsupportedOperationError _ => true | _ => false end.

Inductive result (A : Type) : Type :=
| Ok (a : A)
| Raise (e : exn).
Arguments Ok {A} a.
Arguments Raise {A} e.

(** ** [pathlib] (POSIX flavour, as in CPython 3.10 to 3.12) *)

Module Pathlib.

(** A parsed path: [root] is empty, ["/"] or ["//"]; [parts] are the
    components after the root, none of them empty or ["."]. *)
Record PurePath : Type := mkPath { root : string; parts : list string }.

#[global] Instance PurePath_eq_dec : EqDecision PurePath.
Proof. solve_decision. Defined.

#[global] Instance PurePath_countable : Countable PurePath :=
  inj_countable' (fun p => (root p, parts p)) (fun rp => mkPath rp.1 rp.2)
    (fun p => match p with mkPath _ _ => eq_refl end).

(** [_PosixFlavour.splitroot]: the root and the rest of the string. *)
Definition splitroot (part : string) : string * string :=
  if PyStr.startswith part "/" then
    let stripped := PyStr.lstrip_char part "/" in
    if (PyStr.len part - PyStr.len stripped =? 2)%nat
    then ("//", stripped) else ("/", stripped)
  else ("", part).

(** [_PosixFlavour.parse_parts] on one string. *)
Definition parse (s : string) : PurePath :=
  let '(r, rel) := splitroot s in
  mkPath r (filter (fun x => x <> "" /\ x <> ".") (PyStr.split rel "/")).

(** [str | PurePath] *)
Inductive PathLike : Type :=
| PStr (s : string)
| PPure (p : PurePath).

(** [Path(path)] *)
Definition Path (path : PathLike) : PurePath :=
  match path with
  | PStr s => parse s
  | PPure p => p
  end.

(** [path.name]: the final component, empty when there is none. *)
Definition name (p : PurePath) : string := List.last (parts p) "".

(** [path.parent] *)
Definition parent (p : PurePath) : PurePath :=
  mkPath (root p) (removelast (parts p)).

(** [path.suffix] *)
Definition suffix (p : PurePath) : string :=
  let nm := name p in
  let i := PyStr.rfind nm "." in
  if ((0 <? i) && (i <? Z.of_nat (PyStr.len nm) - 1))%Z
  then PyStr.slice_from nm (Z.to_nat i) else "".

(** [path.suffixes] *)
Definition suffixes (p : PurePath) : list string :=
  let nm := name p in
  if PyStr.endswith nm "." then []
  else map (fun x => "." ++ x) (tail (PyStr.split (PyStr.lstrip_char nm ".") ".")).

(** [path / key] for a string [key] *)
Definition joinpath (p : PurePath) (key : string) : PurePath :=
  let q := parse key in
  if String.eqb (root q) "" then mkPath (root p) (parts p ++ parts q) else q.

(** [str(path)] *)
Definition str (p : PurePath) : string :=
  let s := root p ++ String.concat "/" (parts p) in
  if String.eqb s "" then "." else s.

End Pathlib.

(** ** [class CompressionFormat(_Enum)] *)

Module CompressionFormat.

Inductive t : Type := gz | zip | bz2 | xz | zstd | lz4 | none.

#[global] Instance eq_dec : EqDecision t.
Proof. solve_decision. Defined.

(** Definition order of the members: the order of [for c in cls]. *)
Definition members : list t := [gz; zip; bz2; xz; zstd; lz4; none].

(** [self.name] *)
Definition name (c : t) : string :=
  match c with
  | gz => "gz" | zip => "zip" | bz2 => "bz2" | xz => "xz"
  | zstd => "zstd" | lz4 => "lz4" | none => "none"
  end.

(** [CompressionFormat[key]]: lookup of a member by name. *)
Definition getitem (key : string) : result t :=
  match find (fun c => String.eqb (name c) key) members with
  | Some c => Ok c
  | None => Raise (KeyError key)
  end.

(** [list()] and [list_non_empty()] build a Python [set]; its iteration
    order is not fixed, so the functions that loop over one take the
    order as an argument.  These are the sets in definition order. *)
Definition list_ : list t := members.

Definition list_non_empty : list t := filter (fun c => c <> none) members.

(** [full_name] *)
Definition full_name (c : t) : string :=
  match c with
  | gz => "gzip"
  | bz2 => "bzip2"
  | _ => name c
  end.

(** [of(t)] for a [str] or a [CompressionFormat] ([of] is a reserved
    word here, hence [of_]). *)
Inductive name_or_format : Type :=
| OfStr (s : string)
| OfFormat (c : t).

Definition of_ (order : list t) (x : name_or_format) : result t :=
  match x with
  | OfFormat c => Ok c
  | OfStr s =>
      match getitem (PyStr.lower (PyStr.strip s)) with
      | Raise (KeyError k) =>
          match find (fun f => String.eqb s (full_name f)) order with
          | Some f => Ok f
          | None => Raise (KeyError k)
          end
      | r => r
      end
  end.

(** [is_compressed] *)
Definition is_compressed (c : t) : bool := bool_decide (c <> none).

(** [name_or_none] *)
Definition name_or_none (c : t) : option string :=
  match c with none => None | _ => Some (name c) end.

(** [pandas_value]: [None] for no compression, the empty string for lz4. *)
Definition pandas_value (c : t) : option string :=
  match c with
  | none => None
  | gz => Some "gzip"
  | lz4 => Some ""
  | _ => Some (name c)
  end.

(** [suffix] *)
Definition suffix (c : t) : string :=
  match c with
  | none => ""
  | zstd => ".zst"
  | _ => "." ++ name c
  end.

(** [all_suffixes()]: the set of the suffixes of all members. *)
Definition all_suffixes : gset string := list_to_set (map suffix members).

(** [strip_suffix(path)], looping over [list_non_empty()] in [order]. *)
Definition strip_suffix (order : list t) (path : Pathlib.PathLike)
  : Pathlib.PurePath :=
  let path := Pathlib.Path path in
  match find (fun c => PyStr.endswith (Pathlib.name path) (suffix c)) order with
  | Some c =>
      Pathlib.joinpath (Pathlib.parent path)
        (PyStr.slice_to_neg (Pathlib.name path) (PyStr.len (suffix c)))
  | None => path
  end.

(** [split(path)], looping over [list_non_empty()] in [order]. *)
Definition split (order : list t) (path : Pathlib.PathLike)
  : Pathlib.PurePath * t :=
  let path := match path with
              | Pathlib.PStr s => s
              | Pathlib.PPure p => Pathlib.str p
              end in
  match find (fun c => PyStr.endswith path (suffix c)) order with
  | Some c =>
      (Pathlib.parse (PyStr.slice_to_neg path (PyStr.len (suffix c))), c)
  | None => (Pathlib.parse path, none)
  end.

(** [from_suffix(suffix)] *)
Definition from_suffix (suf : string) : t :=
  match find (fun c => String.eqb suf (suffix c)) members with
  | Some c => c
  | None => none
  end.

(** The local variable [suffix] of [from_path]. *)
Definition from_path_suffix (path : Pathlib.PurePath) : string :=
  if PyStr.startswith (Pathlib.name path) "."
     && (PyStr.count (Pathlib.name path) "." =? 1)%nat
  then Pathlib.name path
  else Pathlib.suffix path.

(** [from_path(path)] *)
Definition from_path (path : Pathlib.PathLike) : t :=
  let path := Pathlib.Path path in
  from_suffix (from_path_suffix path).

End CompressionFormat.

(** ** [datetime.isoformat] *)

Module Datetime.

Record datetime : Type := mkDatetime {
  year : nat; month : nat; day : nat;
  hour : nat; minute : nat; second : nat; microsecond : nat }.

(** ["%0<width>d" % n] *)
Definition pad (width n : nat) : string :=
  let d := NilEmpty.string_of_uint (Nat.to_uint n) in
  PyStr.of_chars (replicate (width - String.length d) "0"%char) ++ d.

(** [_format_time(hh, mm, ss, us, timespec)] of CPython's [datetime]. *)
Definition format_time (hh mm ss us : nat) (timespec : string) : result string :=
  let timespec' :=
    if String.eqb timespec "auto"
    then (if (us =? 0)%nat then "seconds" else "microseconds")
    else timespec in
  let us' := if String.eqb timespec "milliseconds" then (us / 1000)%nat else us in
  if String.eqb timespec' "hours" then Ok (pad 2 hh)
  else if String.eqb timespec' "minutes" then Ok (pad 2 hh ++ ":" ++ pad 2 mm)
  else if String.eqb timespec' "seconds"
  then Ok (pad 2 hh ++ ":" ++ pad 2 mm ++ ":" ++ pad 2 ss)
  else if String.eqb timespec' "milliseconds"
  then Ok (pad 2 hh ++ ":" ++ pad 2 mm ++ ":" ++ pad 2 ss ++ "." ++ pad 3 us')
  else if String.eqb timespec' "microseconds"
  then Ok (pad 2 hh ++ ":" ++ pad 2 mm ++ ":" ++ pad 2 ss ++ "." ++ pad 6 us')
  else Raise (ValueError "Unknown timespec value").

(** [dt.isoformat(timespec=timespec)] for a naive [dt], as CPython
    defines it: the accepted values of [timespec] are ["auto"],
    ["hours"], ["minutes"], ["seconds"], ["milliseconds"] and
    ["microseconds"]. *)
Definition isoformat (dt : datetime) (timespec : string) : result string :=
  match format_time (hour dt) (minute dt) (second dt) (microsecond dt) timespec with
  | Ok t =>
      Ok (pad 4 (year dt) ++ "-" ++ pad 2 (month dt) ++ "-" ++ pad 2 (day dt)
          ++ "T" ++ t)
  | Raise e => Raise e
  end.

End Datetime.

(** ** The operating system and the libraries under [SmartIo] *)

Module OS.

(** A directory, or a regular file with its read and write permission
    for the calling process and its bytes. *)
Inductive node : Type :=
| Dir
| File (r_ok w_ok : bool) (data : string).

(** [files]: the file system.  [buffers]: the in-memory file objects a
    caller may pass instead of a path.  [now]: the wall clock.
    [fault_after]: [Some k] when the device accepts [k] more bytes and
    then fails the write in progress; [None] when writes do not fail.
    [handle]: the file object that is open for writing, if any: the path
    at which its file is found now, and the bytes it holds back. *)
Record state : Type := mkState {
  files : gmap Pathlib.PurePath node;
  buffers : gmap nat string;
  now : Datetime.datetime;
  fault_after : option nat;
  handle : option (Pathlib.PurePath * string) }.

Definition set_files (st : state) (fs : gmap Pathlib.PurePath node) : state :=
  mkState fs (buffers st) (now st) (fault_after st) (handle st).

Definition set_handle (st : state) (h : option (Pathlib.PurePath * string)) : state :=
  mkState (files st) (buffers st) (now st) (fault_after st) h.

(** A computation that may raise and that threads the state; the state
    at the point of the exception is kept. *)
Definition io (A : Type) : Type := state -> result A * state.

Definition ret {A} (a : A) : io A := fun st => (Ok a, st).
Definition raise {A} (e : exn) : io A := fun st => (Raise e, st).
Definition bind {A B} (m : io A) (k : A -> io B) : io B :=
  fun st => match m st with
            | (Ok a, st') => k a st'
            | (Raise e, st') => (Raise e, st')
            end.
Definition lift {A} (r : result A) : io A := fun st => (r, st).

(** [path.exists()], [path.is_file()] *)
Definition exists_ (p : Pathlib.PurePath) (st : state) : bool :=
  bool_decide (is_Some (files st !! p)).

Definition is_file (p : Pathlib.PurePath) (st : state) : bool :=
  match files st !! p with Some (File _ _ _) => true | _ => false end.

(** [os.access(path, os.R_OK)] *)
Definition access_R (p : Pathlib.PurePath) (st : state) : bool :=
  match files st !! p with
  | Some (File r _ _) => r
  | Some Dir => true
  | None => false
  end.

(** [os.access(path, os.W_OK)] *)
Definition access_W (p : Pathlib.PurePath) (st : state) : bool :=
  match files st !! p with
  | Some (File _ w _) => w
  | Some Dir => true
  | None => false
  end.

(** [open(path, "r")] followed by reading the whole file. *)
Definition read_file (p : Pathlib.PurePath) : io string :=
  fun st => match files st !! p with
            | None => (Raise FileNotFoundError, st)
            | Some Dir => (Raise IsADirectoryError, st)
            | Some (File r _ data) =>
                if r then (Ok data, st) else (Raise PermissionError, st)
            end.

(** [open(path, "w")] ([append = false]) or [open(path, "a")] of a path
    whose directory exists and can be written to: the file is created
    when absent and emptied unless appending.  Directories above a path
    are not part of the state, so what is proved of a file that the open
    creates holds under that condition only; for a file that exists the
    open needs nothing of the directory. *)
Definition open_write (append : bool) (p : Pathlib.PurePath) : io unit :=
  fun st => match files st !! p with
            | None => (Ok tt, set_files st (<[p := File true true ""]> (files st)))
            | Some Dir => (Raise IsADirectoryError, st)
            | Some (File r w data) =>
                if w then
                  (Ok tt, set_files st
                            (<[p := File r w (if append then data else "")]> (files st)))
                else (Raise PermissionError, st)
            end.

(** The device appends [data] to the file at [p]; when it fails, the
    bytes accepted so far stay in the file. *)
Definition write_file (p : Pathlib.PurePath) (data : string) : io unit :=
  fun st => match files st !! p with
            | Some (File r w old) =>
                match fault_after st with
                | Some k =>
                    if (k <? String.length data)%nat then
                      (Raise NoSpaceError,
                       mkState
                         (<[p := File r w (old ++ PyStr.of_chars (take k (PyStr.chars data)))]>
                            (files st))
                         (buffers st) (now st) (Some 0%nat) (handle st))
                    else
                      (Ok tt,
                       mkState (<[p := File r w (old ++ data)]> (files st))
                         (buffers st) (now st) (Some (k - String.length data)%nat)
                         (handle st))
                | None =>
                    (Ok tt, set_files st (<[p := File r w (old ++ data)]> (files st)))
                end
            | _ => (Raise FileNotFoundError, st)
            end.

(** [handle.write(data)] on the open file object, which holds back up to
    [size] bytes: more than that are handed to the device during the
    call.  When the device takes only the first bytes (a short write),
    the object holds back what is left if that fits, the call returns,
    and the failure shows at the next hand-over, the close; the call
    itself raises only when what is left does not fit either. *)
Definition handle_write (size : nat) (data : string) : io unit :=
  fun st => match handle st with
            | None => (Raise (ValueError "I/O operation on closed file"), st)
            | Some (q, pending) =>
                if (size <? String.length (pending ++ data))%nat then
                  match write_file q (pending ++ data) st with
                  | (Raise NoSpaceError, st1) =>
                      let rest :=
                        PyStr.of_chars
                          (drop (default 0%nat (fault_after st))
                             (PyStr.chars (pending ++ data))) in
                      if (size <? String.length rest)%nat
                      then (Raise NoSpaceError, set_handle st1 (Some (q, "")))
                      else (Ok tt, set_handle st1 (Some (q, rest)))
                  | (r, st1) => (r, set_handle st1 (Some (q, "")))
                  end
                else (Ok tt, set_handle st (Some (q, pending ++ data)))
            end.

(** [handle.close()]: the bytes held back are handed to the device. *)
Definition close : io unit :=
  fun st => match handle st with
            | None => (Ok tt, st)
            | Some (q, pending) =>
                if String.eqb pending "" then (Ok tt, set_handle st None)
                else match write_file q pending st with
                     | (r, st1) => (r, set_handle st1 None)
                     end
            end.

(** [with handle: body]: the handle is closed when the body is left, by
    its end or by an exception; an exception of the close is the one that
    goes on. *)
Definition with_close {A} (body : io A) : io A :=
  fun st => match body st with
            | (r, st1) =>
                match close st1 with
                | (Raise e, st2) => (Raise e, st2)
                | (Ok _, st2) => (r, st2)
                end
            end.

(** [os.replace(src, dst)]: an open file object stays with its file. *)
Definition replace (src dst : Pathlib.PurePath) : io unit :=
  fun st => match files st !! src with
            | None => (Raise FileNotFoundError, st)
            | Some n =>
                match n, files st !! dst with
                | File _ _ _, Some Dir => (Raise IsADirectoryError, st)
                | _, _ =>
                    (Ok tt,
                     mkState (<[dst := n]> (delete src (files st)))
                       (buffers st) (now st) (fault_after st)
                       (match handle st with
                        | Some (q, pending) =>
                            if decide (q = src) then Some (dst, pending)
                            else Some (q, pending)
                        | None => None
                        end))
                end
            end.

End OS.

Notation "'do' x <- m ; k" := (OS.bind m (fun x => k))
  (at level 10, x name, m at level 100, k at level 200).
Notation "'run' m ; k" := (OS.bind m (fun _ => k))
  (at level 10, m at level 100, k at level 200).

(** The parts of the run-time environment that the source reaches through
    libraries.  [isoformat]: [datetime.isoformat].  [lz4_frame]: whether
    [import lz4.frame] succeeded.  [encode c text]: the bytes that a
    pandas handle opened for scheme [c] stores for [text];
    [decode c bytes]: the text read back.  [lz4_decode]: what
    [lz4.frame.open(path).read()] returns.  [lz4_empty]: the bytes of an
    lz4 file to which nothing was written.  [buffer_size]: the number of
    bytes that a file object opened for writing holds back. *)
Record runtime : Type := mkRuntime {
  isoformat : Datetime.datetime -> string -> result string;
  lz4_frame : bool;
  encode : CompressionFormat.t -> string -> string;
  decode : CompressionFormat.t -> string -> result string;
  lz4_decode : string -> result string;
  lz4_empty : string;
  buffer_size : nat }.

(** ** [class SmartIo] *)

Module SmartIo.

Import CompressionFormat (gz, zip, bz2, xz, zstd, lz4, none).

(** The first argument of [write] and [read]: [None], a path, an open
    file object, or a [bytes] object. *)
Inductive path_or_buff : Type :=
| PNone
| PPath (p : Pathlib.PathLike)
| PBuffer (id : nat)
| PBytes (b : string).

(** [**kwargs]: only the key ["compression"] is inspected by the source. *)
Record kwargs : Type := mkKwargs {
  kw_compression : option CompressionFormat.name_or_format }.

Definition no_kwargs : kwargs := mkKwargs None.

Section WithRuntime.

Variable rt : runtime.

(** The iteration order of [CompressionFormat.list()]. *)
Variable order : list CompressionFormat.t.

(** [path_or_buff_compression] *)
Definition path_or_buff_compression (pb : path_or_buff) (kw : kwargs)
  : result CompressionFormat.t :=
  match kw_compression kw with
  | Some x => CompressionFormat.of_ order x
  | None =>
      match pb with
      | PPath p => Ok (CompressionFormat.from_path p)
      | _ => Ok none
      end
  end.

(** [tmp_path(path, extra)] *)
Definition tmp_path (path : Pathlib.PathLike) (extra : string)
  : OS.io Pathlib.PurePath :=
  do stamp <- (fun st => (isoformat rt (OS.now st) "ns", st)) ;
  let now := PyStr.remove_char (PyStr.remove_char stamp ":") "-" in
  let path := Pathlib.Path path in
  let suffix := PyStr.join (Pathlib.suffixes path) in
  OS.ret (Pathlib.joinpath (Pathlib.parent path)
            (".__" ++ extra ++ "." ++ now ++ suffix)).

(** The scheme pandas applies for a value of [compression=]. *)
Definition pandas_scheme (compression : option string)
  : result CompressionFormat.t :=
  match compression with
  | None => Ok none
  | Some v =>
      if String.eqb v "gzip" then Ok gz
      else if String.eqb v "zip" then Ok zip
      else if String.eqb v "bz2" then Ok bz2
      else if String.eqb v "xz" then Ok xz
      else if String.eqb v "zstd" then Ok zstd
      else Raise (ValueError "Unrecognized compression type")
  end.

(** [Path(path_or_buff)] *)
Definition as_Path (pb : path_or_buff) : result Pathlib.PurePath :=
  match pb with
  | PPath p => Ok (Pathlib.Path p)
  | _ => Raise (TypeError "expected str, bytes or os.PathLike object")
  end.

(** [get_handle(path_or_buff, mode, compression=...)] for writing: a
    path is opened, and the file object on it is the open handle of the
    state; a buffer is used as it is.  The modes ["w"] and ["a"] are
    modelled. *)
Definition get_handle_w (pb : path_or_buff) (mode : string)
  (compression : option string) : OS.io (path_or_buff * CompressionFormat.t) :=
  do c <- OS.lift (pandas_scheme compression) ;
  match pb with
  | PPath p =>
      run OS.open_write (PyStr.contains mode "a") (Pathlib.Path p) ;
      run (fun st => (Ok tt, OS.set_handle st (Some (Pathlib.Path p, "")))) ;
      OS.ret (pb, c)
  | PBuffer _ => OS.ret (pb, c)
  | PBytes _ => OS.ret (pb, c)
  | PNone => OS.raise (ValueError "Invalid file path or buffer object type")
  end.

(** [f.handle.write(content)].  A file object that the caller passed is
    modelled by what it holds and is taken to stand at its end, as one
    that was only written to does; the write then adds to it. *)
Definition handle_write (f : path_or_buff * CompressionFormat.t)
  (content : string) : OS.io unit :=
  match f.1 with
  | PPath _ => OS.handle_write (buffer_size rt) (encode rt f.2 content)
  | PBuffer id =>
      fun st =>
        (Ok tt,
         OS.mkState (OS.files st)
           (<[id := default "" (OS.buffers st !! id) ++ encode rt f.2 content]>
              (OS.buffers st))
           (OS.now st) (OS.fault_after st) (OS.handle st))
  | _ => OS.raise (AttributeError "object has no attribute 'write'")
  end.

(** [with lz4.frame.open(str(path), mode="wb") as fp: fp.write()]:
    the file is opened, then the call without its argument raises, and
    leaving the block closes the file. *)
Definition lz4_write_nothing (path : Pathlib.PurePath) : OS.io unit :=
  if lz4_frame rt then
    run OS.open_write false path ;
    (fun st =>
       (Raise (TypeError "write() missing 1 required positional argument"),
        match OS.files st !! path with
        | Some (OS.File r w _) =>
            OS.set_files st (<[path := OS.File r w (lz4_empty rt)]> (OS.files st))
        | _ => st
        end))
  else OS.raise (AttributeError "'NoneType' object has no attribute 'open'").

(** [write(path_or_buff, content, mode=mode, atomic=atomic, **kwargs)] *)
Definition write (pb : path_or_buff) (content : string) (mode : string)
  (atomic : bool) (kw : kwargs) : OS.io (option string) :=
  match pb with
  | PNone => OS.ret (Some content)
  | _ =>
      do compression <- OS.lift (path_or_buff_compression pb kw) ;
      if decide (compression = lz4) then
        if PyStr.contains mode "a" then
          OS.raise (UnsupportedOperationError "Can't append to lz4 (yet)")
        else
          do path <- OS.lift (as_Path pb) ;
          do tmp <- tmp_path (Pathlib.PPure path) "tmp" ;
          do f <- (match kw_compression kw with
                | Some _ => OS.raise (ValueError "Unrecognized compression type")
                | None => get_handle_w (PPath (Pathlib.PPure tmp)) mode None
                end) ;
          run OS.with_close (handle_write f content) ;
          if atomic then
            do tmp <- tmp_path (Pathlib.PPure path) "tmp" ;
            run lz4_write_nothing tmp ;
            run OS.replace tmp path ;
            OS.ret None
          else
            run lz4_write_nothing path ;
            OS.ret None
      else
        let compression' := CompressionFormat.pandas_value compression in
        match pb with
        | PPath p =>
            if atomic then
              if PyStr.contains mode "a" then
                OS.raise (UnsupportedOperationError "Can't append in atomic write")
              else
                let path := Pathlib.Path p in
                do tmp <- tmp_path (Pathlib.PPure path) "tmp" ;
                do f <- get_handle_w (PPath (Pathlib.PPure tmp)) mode compression' ;
                OS.with_close
                  (run handle_write f content ;
                   run OS.replace tmp path ;
                   OS.ret None)
            else
              do f <- get_handle_w pb mode compression' ;
              OS.with_close
                (run handle_write f content ;
                 OS.ret None)
        | _ =>
            do f <- get_handle_w pb mode compression' ;
            OS.with_close
              (run handle_write f content ;
               OS.ret None)
        end
  end.

(** [get_handle(path_or_buff, "r", compression=...)] entered for
    reading, followed by [f.handle.read()]: the default mode ["r"] is the
    one modelled, and a file object is read whole, from its start. *)
Definition get_handle_read (pb : path_or_buff) (compression : option string)
  : OS.io string :=
  do c <- OS.lift (pandas_scheme compression) ;
  match pb with
  | PPath p =>
      do data <- OS.read_file (Pathlib.Path p) ;
      OS.lift (decode rt c data)
  | PBuffer id =>
      fun st => (decode rt c (default "" (OS.buffers st !! id)), st)
  | PBytes _ =>
      OS.raise (TypeError "Expected file path name or file-like object, got <class 'bytes'> type")
  | PNone => OS.raise (ValueError "Invalid file path or buffer object type")
  end.

(** [read(path_or_buff, mode=mode, **kwargs)].  The mode is only passed
    on to [get_handle], which is modelled for the default ["r"]. *)
Definition read (pb : path_or_buff) (mode : string) (kw : kwargs)
  : OS.io string :=
  do compression <- OS.lift (path_or_buff_compression pb kw) ;
  if decide (compression = lz4) then
    do path <- OS.lift (as_Path pb) ;
    do raw <- (if lz4_frame rt then OS.read_file path
               else OS.raise (AttributeError "'NoneType' object has no attribute 'open'")) ;
    do b <- OS.lift (lz4_decode rt raw) ;
    match kw_compression kw with
    | Some _ => OS.raise (ValueError "Unrecognized compression type")
    | None => get_handle_read (PBytes b) None
    end
  else
    get_handle_read pb (CompressionFormat.pandas_value compression).

(** [verify_can_read_files] over the paths given, in order. *)
Fixpoint verify_can_read_files (paths : list Pathlib.PathLike)
  (missing_ok attempt : bool) : OS.io unit :=
  match paths with
  | [] => OS.ret tt
  | p :: rest =>
      let path := Pathlib.Path p in
      fun st =>
        if OS.exists_ path st && negb (OS.is_file path st) then
          (Raise (ReadPermissionsError
                    ("Path " ++ Pathlib.str path ++ " is not a file")
                    (Pathlib.str path)), st)
        else if (negb missing_ok || OS.exists_ path st)
                && negb (OS.access_R path st) then
          (Raise (ReadPermissionsError
                    ("Cannot read from " ++ Pathlib.str path)
                    (Pathlib.str path)), st)
        else if attempt then
          match OS.read_file path st with
          | (Raise e, st') =>
              if is_OSError e then
                (Raise (WritePermissionsError
                          ("Failed to open " ++ Pathlib.str path ++ " for read")
                          (Pathlib.str path)), st')
              else (Raise e, st')
          | (Ok _, st') => verify_can_read_files rest missing_ok attempt st'
          end
        else verify_can_read_files rest missing_ok attempt st
  end.

End WithRuntime.

(** [verify_can_write_files] over the paths given, in order.  The attempt
    is [with open(path, "a"): pass], which creates a missing file. *)
Fixpoint verify_can_write_files (paths : list Pathlib.PathLike)
  (missing_ok attempt : bool) : OS.io unit :=
  match paths with
  | [] => OS.ret tt
  | p :: rest =>
      let path := Pathlib.Path p in
      fun st =>
        if OS.exists_ path st && negb (OS.is_file path st) then
          (Raise (WritePermissionsError
                    ("Path " ++ Pathlib.str path ++ " is not a file")
                    (Pathlib.str path)), st)
        else if (negb missing_ok || OS.exists_ path st)
                && negb (OS.access_W path st) then
          (Raise (WritePermissionsError
                    ("Cannot write to " ++ Pathlib.str path)
                    (Pathlib.str path)), st)
        else if attempt then
          match OS.open_write true path st with
          | (Raise e, st') =>
              if is_OSError e then
                (Raise (WritePermissionsError
                          ("Failed to open " ++ Pathlib.str path ++ " for write")
                          (Pathlib.str path)), st')
              else (Raise e, st')
          | (Ok _, st') => verify_can_write_files rest missing_ok attempt st'
          end
        else verify_can_write_files rest missing_ok attempt st
  end.





(** [get_encoding(encoding)]; [os_name] is [os.name] and
    [default_encoding] is [sys.getdefaultencoding()]. *)
Definition get_encoding (os_name default_encoding : string) (encoding : string)
  : string :=
  let encoding := PyStr.remove_char (PyStr.lower encoding) "-" in
  let encoding :=
    if String.eqb encoding "platform" then default_encoding else encoding in
  let encoding :=
    if String.eqb encoding "utf8(bom)"
    then (if String.eqb os_name "nt" then "utf-8-sig" else "utf-8")
    else encoding in
  let encoding :=
    if String.eqb encoding "utf16(bom)"
    then (if String.eqb os_name "nt" then "utf-16-sig" else "utf-16")
    else encoding in
  let encoding :=
    if String.eqb encoding "utf32(bom)"
    then (if String.eqb os_name "nt" then "utf-32-sig" else "utf-32")
    else encoding in
  encoding.

(** The values that [get_encoding_errors] lets through. *)
Definition error_handlers : list string :=
  ["strict"; "ignore"; "replace"; "xmlcharrefreplace"; "backslashreplace";
   "namereplace"; "surrogateescape"; "surrogatepass"].

(** [get_encoding_errors(errors)] for [None] or a string. *)
Definition get_encoding_errors (errors : option string) : result string :=
  match errors with
  | None => Ok "strict"
  | Some e =>
      if bool_decide (e ∈ error_handlers) then Ok e
      else Raise (ValueError ("Invalid value " ++ e ++ " for errors"))
  end.

End SmartIo.

(** CPython: [datetime.isoformat] as the standard library defines it. *)
Definition cpython (lz4_frame : bool)
  (encode : CompressionFormat.t -> string -> string)
  (decode : CompressionFormat.t -> string -> result string)
  (lz4_decode : string -> result string) (lz4_empty : string)
  (buffer_size : nat) : runtime :=
  mkRuntime Datetime.isoformat lz4_frame encode decode lz4_decode lz4_empty
    buffer_size.

(** Sample run times for the examples.  [tag_encode], [tag_decode]: codecs
    that put the scheme name in front of the text.  [cpython_tagging]:
    CPython with these codecs and lz4 installed. *)
Definition tag_encode (c : CompressionFormat.t) (text : string) : string :=
  CompressionFormat.name c ++ ":" ++ text.

Definition tag_decode (c : CompressionFormat.t) (data : string) : result string :=
  let tag := CompressionFormat.name c ++ ":" in
  if PyStr.startswith data tag
  then Ok (PyStr.slice_from data (String.length tag))
  else Raise BadStreamError.

Definition cpython_tagging : runtime :=
  cpython true tag_encode tag_decode (tag_decode CompressionFormat.lz4)
    (tag_encode CompressionFormat.lz4 "") (8 * 1024).

(** An [isoformat] that, unlike CPython's, accepts [timespec="ns"]: the
    microsecond form followed by three more digits. *)
Definition isoformat_ns (dt : Datetime.datetime) (timespec : string) : result string :=
  if String.eqb timespec "ns" then
    match Datetime.isoformat dt "microseconds" with
    | Ok s => Ok (s ++ "000")
    | Raise e => Raise e
    end
  else Datetime.isoformat dt timespec.

Definition ns_tagging : runtime :=
  mkRuntime isoformat_ns true tag_encode tag_decode (tag_decode CompressionFormat.lz4)
    (tag_encode CompressionFormat.lz4 "") (8 * 1024).

Definition sample_now : Datetime.datetime :=
  Datetime.mkDatetime 2025 1 2 3 4 5 6.

Definition empty_state : OS.state := OS.mkState ∅ ∅ sample_now None None.

(** A file system with one compressed file, on a device that accepts
    [k] more bytes. *)
Definition nearly_full_state (k : nat) : OS.state :=
  OS.mkState {[ Pathlib.parse "data.csv.gz" := OS.File true true "gz:old" ]}
    ∅ sample_now (Some k) None.

(** The device accepts 8500 more bytes, or four. *)
Definition nearly_full : OS.state := nearly_full_state (85 * 100).

Definition almost_full : OS.state := nearly_full_state 4.



(** ** Properties of the registry *)

Import CompressionFormat (gz, zip, bz2, xz, zstd, lz4, none).

Lemma members_complete (c : CompressionFormat.t) : In c CompressionFormat.members.
Proof. destruct c; simpl; tauto. Qed.

Lemma suffix_inj_non_none (a b : CompressionFormat.t) :
  a <> none -> CompressionFormat.suffix a = CompressionFormat.suffix b -> a = b.
Proof.
  intros Hn H.
  destruct a, b; try reflexivity; try (now elim Hn); vm_compute in H; discriminate H.
Qed.

(** C8.  The suffixes of two distinct formats other than [none] are
    distinct and non-empty, and the suffix of [none] is the empty string. *)
Theorem suffix_unique_except_none :
  (forall a b : CompressionFormat.t,
      a <> none -> b <> none -> a <> b ->
      CompressionFormat.suffix a <> CompressionFormat.suffix b
      /\ CompressionFormat.suffix a <> "" /\ CompressionFormat.suffix b <> "")
  /\ CompressionFormat.suffix none = "".
Proof.
  split; [| reflexivity].
  intros a b Ha Hb Hab. repeat split.
  - intros H. apply Hab. now apply suffix_inj_non_none.
  - destruct a; try (now elim Ha); vm_compute; discriminate.
  - destruct b; try (now elim Hb); vm_compute; discriminate.
Qed.

Lemma suffix_unique_except_none_witness :
  CompressionFormat.suffix gz <> CompressionFormat.suffix xz
  /\ CompressionFormat.suffix gz <> "" /\ CompressionFormat.suffix xz <> "".
Proof.
  apply (proj1 suffix_unique_except_none); discriminate.
Defined.

(** ** Strings *)

Lemma chars_of_chars (l : list ascii) : PyStr.chars (PyStr.of_chars l) = l.
Proof. apply list_ascii_of_string_of_list_ascii. Qed.

Lemma of_chars_chars (s : string) : PyStr.of_chars (PyStr.chars s) = s.
Proof. apply string_of_list_ascii_of_string. Qed.

Lemma chars_app (a b : string) :
  PyStr.chars (a ++ b) = (PyStr.chars a ++ PyStr.chars b)%list.
Proof. induction a as [| x a IH]; simpl; [reflexivity | now rewrite IH]. Qed.

Lemma of_chars_app (a b : list ascii) :
  PyStr.of_chars (a ++ b)%list = PyStr.of_chars a ++ PyStr.of_chars b.
Proof. induction a as [| x a IH]; simpl; [reflexivity | now rewrite IH]. Qed.

Lemma chars_length (s : string) : length (PyStr.chars s) = String.length s.
Proof. induction s as [| x s IH]; simpl; [reflexivity | now rewrite IH]. Qed.

Lemma chars_inj (a b : string) : PyStr.chars a = PyStr.chars b -> a = b.
Proof.
  intros H. rewrite <- (of_chars_chars a), <- (of_chars_chars b). now rewrite H.
Qed.

(** [s.endswith(p)] holds exactly when [s] is some stem followed by [p]. *)
Lemma endswith_spec (s p : string) :
  PyStr.endswith s p = true <-> exists stem, s = stem ++ p.
Proof.
  unfold PyStr.endswith. rewrite bool_decide_eq_true. split.
  - intros [k Hk]. exists (PyStr.of_chars k).
    apply chars_inj. now rewrite chars_app, chars_of_chars.
  - intros [stem ->]. exists (PyStr.chars stem). apply chars_app.
Qed.

(** [s[:-len(p)]] is the stem when [s] ends with a non-empty [p]. *)
Lemma slice_to_neg_app (stem p : string) :
  p <> "" -> PyStr.slice_to_neg (stem ++ p) (PyStr.len p) = stem.
Proof.
  intros Hp. unfold PyStr.slice_to_neg, PyStr.len.
  destruct (String.length p) eqn:E.
  - destruct p; [now elim Hp | discriminate E].
  - rewrite <- E, <- !chars_length, !chars_app, length_app.
    replace (length (PyStr.chars stem) + length (PyStr.chars p) - length (PyStr.chars p))%nat
      with (length (PyStr.chars stem)) by lia.
    rewrite take_app_length. apply of_chars_chars.
Qed.

(** Two registered suffixes never end the same name. *)
Lemma endswith_suffix_unique (s : string) (a b : CompressionFormat.t) :
  a <> none -> b <> none ->
  PyStr.endswith s (CompressionFormat.suffix a) = true ->
  PyStr.endswith s (CompressionFormat.suffix b) = true ->
  a = b.
Proof.
  unfold PyStr.endswith. rewrite !bool_decide_eq_true.
  intros Ha Hb H1 H2.
  destruct (suffix_weak_total _ _ _ H1 H2) as [H | H];
    apply (bool_decide_eq_true_2 _) in H;
    destruct a, b; try reflexivity; try (now elim Ha); try (now elim Hb);
    vm_compute in H; discriminate H.
Qed.

(** ** The loops over [list()] and [list_non_empty()] *)

Lemma list_non_empty_spec (c : CompressionFormat.t) :
  In c CompressionFormat.list_non_empty <-> c <> none.
Proof.
  split.
  - intros H ->. vm_compute in H. intuition discriminate.
  - intros H. destruct c; vm_compute; tauto.
Qed.

(** A loop that returns at the first match returns the only match. *)
Lemma find_unique {A : Type} (f : A -> bool) (l : list A) (x : A) :
  In x l -> f x = true -> (forall y, In y l -> f y = true -> y = x) ->
  find f l = Some x.
Proof.
  induction l as [| y l IH]; simpl; [tauto |].
  intros Hin Hx Hu. destruct (f y) eqn:E.
  - f_equal. apply Hu; [now left | exact E].
  - destruct Hin as [-> | Hin]; [congruence |].
    apply IH; auto.
Qed.

Lemma find_none {A : Type} (f : A -> bool) (l : list A) :
  (forall y, In y l -> f y = false) -> find f l = None.
Proof.
  induction l as [| y l IH]; simpl; [reflexivity |].
  intros H. rewrite (H y) by now left. apply IH. intros z Hz. apply H. now right.
Qed.

(** ** [CompressionFormat.from_suffix] and [from_path] *)

Lemma from_suffix_of_suffix (c : CompressionFormat.t) :
  CompressionFormat.from_suffix (CompressionFormat.suffix c) = c.
Proof. destruct c; reflexivity. Qed.

Lemma from_suffix_unregistered (suf : string) :
  (forall c, CompressionFormat.suffix c <> suf) ->
  CompressionFormat.from_suffix suf = none.
Proof.
  intros H. unfold CompressionFormat.from_suffix.
  rewrite find_none; [reflexivity |].
  intros c _. apply String.eqb_neq. intros E. now apply (H c).
Qed.

Lemma rfind_from_absent (s : string) (c : ascii) (i best : Z) :
  PyStr.contains s c = false -> PyStr.rfind_from s c i best = best.
Proof.
  revert i best. induction s as [| a s IH]; simpl; intros i best H; [reflexivity |].
  apply orb_false_iff in H as [Ha Hs]. rewrite Ha. now apply IH.
Qed.

Lemma rfind_from_last (a b : string) (c : ascii) (i best : Z) :
  PyStr.contains b c = false ->
  PyStr.rfind_from (a ++ String c b) c i best = (i + Z.of_nat (String.length a))%Z.
Proof.
  intros Hb. revert i best.
  induction a as [| x a IH]; simpl String.length; intros i best.
  - simpl. rewrite Ascii.eqb_refl, rfind_from_absent by exact Hb. lia.
  - change (String x a ++ String c b) with (String x (a ++ String c b)).
    simpl PyStr.rfind_from. rewrite IH. lia.
Qed.

Lemma count_app (a b : string) (c : ascii) :
  PyStr.count (a ++ b) c = (PyStr.count a c + PyStr.count b c)%nat.
Proof. induction a as [| x a IH]; simpl; [reflexivity | rewrite IH; lia]. Qed.

Lemma count_absent (s : string) (c : ascii) :
  PyStr.contains s c = false -> PyStr.count s c = 0%nat.
Proof.
  induction s as [| a s IH]; simpl; intros H; [reflexivity |].
  apply orb_false_iff in H as [Ha Hs]. rewrite Ha. now apply IH.
Qed.

Lemma startswith_dot (x : ascii) (s : string) :
  PyStr.startswith (String x s) "." = true -> x = "."%char.
Proof.
  unfold PyStr.startswith. rewrite bool_decide_eq_true.
  intros [k Hk]. simpl in Hk. congruence.
Qed.

Lemma startswith_dot_cons (s : string) : PyStr.startswith (String "." s) "." = true.
Proof.
  unfold PyStr.startswith. apply bool_decide_eq_true.
  exists (PyStr.chars s). reflexivity.
Qed.

(** The suffix that [from_path] inspects, for a name that ends with a dot
    followed by a non-empty extension without dots. *)
Lemma from_path_suffix_extension (r : string) (ps : list string) (stem ext : string) :
  ext <> "" -> PyStr.contains ext "." = false ->
  CompressionFormat.from_path_suffix (Pathlib.mkPath r (ps ++ [stem ++ String "." ext]))
  = String "." ext.
Proof.
  intros Hne Hdot.
  unfold CompressionFormat.from_path_suffix, Pathlib.suffix, Pathlib.name.
  simpl Pathlib.parts. rewrite last_last.
  destruct stem as [| x stem].
  - change ("" ++ String "." ext) with (String "." ext).
    rewrite startswith_dot_cons. simpl PyStr.count.
    rewrite count_absent by exact Hdot. reflexivity.
  - assert (Hc : PyStr.startswith (String x stem ++ String "." ext) "."
                 && (PyStr.count (String x stem ++ String "." ext) "." =? 1)%nat = false).
    { destruct (PyStr.startswith (String x stem ++ String "." ext) ".") eqn:E;
        [| reflexivity].
      apply startswith_dot in E. subst x.
      rewrite count_app. simpl. rewrite (count_absent ext) by exact Hdot.
      apply Nat.eqb_neq. lia. }
    rewrite Hc. unfold PyStr.rfind.
    rewrite rfind_from_last by exact Hdot.
    assert (Hl : PyStr.len (String x stem ++ String "." ext)
                 = (String.length (String x stem) + S (String.length ext))%nat).
    { unfold PyStr.len. rewrite <- !chars_length, chars_app, length_app.
      simpl. now rewrite !chars_length. }
    rewrite Hl.
    assert (He : (0 < String.length ext)%nat)
      by (destruct ext; [now elim Hne | simpl; lia]).
    replace ((0 <? 0 + Z.of_nat (String.length (String x stem)))%Z) with true
      by (symmetry; apply Z.ltb_lt; simpl; lia).
    replace ((0 + Z.of_nat (String.length (String x stem))
              <? Z.of_nat (String.length (String x stem) + S (String.length ext)) - 1)%Z)
      with true by (symmetry; apply Z.ltb_lt; lia).
    simpl andb. cbv iota.
    unfold PyStr.slice_from.
    replace (Z.to_nat (0 + Z.of_nat (String.length (String x stem))))
      with (length (PyStr.chars (String x stem)))
      by (rewrite chars_length; lia).
    rewrite chars_app, drop_app_length. apply of_chars_chars.
Qed.

(** Every registered suffix is recognised behind any stem. *)
Lemma from_path_registered_suffix (r : string) (ps : list string) (stem : string)
  (c : CompressionFormat.t) :
  c <> none ->
  CompressionFormat.from_path
    (Pathlib.PPure (Pathlib.mkPath r (ps ++ [stem ++ CompressionFormat.suffix c]))) = c.
Proof.
  intros Hc. unfold CompressionFormat.from_path. simpl Pathlib.Path.
  rewrite <- (from_suffix_of_suffix c) at 2. f_equal.
  destruct c; try (now elim Hc);
    apply from_path_suffix_extension; (discriminate || reflexivity).
Qed.

(** C4.  [from_path] looks at the file name only: a name that starts with
    a dot and has no other dot is taken whole as the suffix, any other name
    gives its final extension; the result is the format registered for
    that suffix and [none] when there is none.  [from_path] is a total
    function, so it does not raise.  ["data.csv.gz"] gives gzip and
    ["data.csv"] gives [none]. *)
Theorem from_path_by_filename_suffix :
  (forall path : Pathlib.PathLike,
      let nm := Pathlib.name (Pathlib.Path path) in
      CompressionFormat.from_path path
      = CompressionFormat.from_suffix
          (if PyStr.startswith nm "." && (PyStr.count nm "." =? 1)%nat
           then nm else Pathlib.suffix (Pathlib.Path path)))
  /\ (forall p q : Pathlib.PathLike,
         Pathlib.name (Pathlib.Path p) = Pathlib.name (Pathlib.Path q) ->
         CompressionFormat.from_path p = CompressionFormat.from_path q)
  /\ (forall c : CompressionFormat.t,
         CompressionFormat.from_suffix (CompressionFormat.suffix c) = c)
  /\ (forall suf : string,
         (forall c, CompressionFormat.suffix c <> suf) ->
         CompressionFormat.from_suffix suf = none)
  /\ (forall (r : string) (ps : list string) (stem : string) (c : CompressionFormat.t),
         c <> none ->
         CompressionFormat.from_path
           (Pathlib.PPure (Pathlib.mkPath r (ps ++ [stem ++ CompressionFormat.suffix c]))) = c)
  /\ CompressionFormat.from_path (Pathlib.PStr "data.csv.gz") = gz
  /\ CompressionFormat.from_path (Pathlib.PStr "data.csv") = none.
Proof.
  split; [reflexivity |].
  split.
  { intros p q H.
    unfold CompressionFormat.from_path, CompressionFormat.from_path_suffix, Pathlib.suffix.
    now rewrite H. }
  split; [exact from_suffix_of_suffix |].
  split; [exact from_suffix_unregistered |].
  split; [exact from_path_registered_suffix |].
  split; reflexivity.
Qed.

Lemma from_path_by_filename_suffix_witness :
  CompressionFormat.from_path (Pathlib.PStr "a/data.gz")
  = CompressionFormat.from_path (Pathlib.PStr "/b/c/data.gz")
  /\ CompressionFormat.from_suffix ".csv" = none
  /\ CompressionFormat.from_path
       (Pathlib.PPure (Pathlib.mkPath "/" (["srv"] ++ ["log" ++ CompressionFormat.suffix xz]))) = xz.
Proof.
  split; [| split].
  - apply (proj1 (proj2 from_path_by_filename_suffix)). reflexivity.
  - apply (proj1 (proj2 (proj2 (proj2 from_path_by_filename_suffix)))).
    intros c; destruct c; vm_compute; discriminate.
  - apply (proj1 (proj2 (proj2 (proj2 (proj2 from_path_by_filename_suffix))))).
    discriminate.
Defined.

(** ** [CompressionFormat.strip_suffix] *)

(** C6.  Whatever the iteration order of [list_non_empty()]: when the file
    name ends with the suffix of a format other than [none],
    [strip_suffix] returns the parent joined with the name without that
    suffix; when the name ends with no such suffix it returns the path as
    it is; and ["data.csv.gz"] becomes ["data.csv"]. *)
Theorem strip_suffix_removes_registered_suffix
  (order : list CompressionFormat.t) (path : Pathlib.PathLike) :
  Permutation order CompressionFormat.list_non_empty ->
  (forall (c : CompressionFormat.t) (stem : string),
      c <> none ->
      Pathlib.name (Pathlib.Path path) = stem ++ CompressionFormat.suffix c ->
      CompressionFormat.strip_suffix order path
      = Pathlib.joinpath (Pathlib.parent (Pathlib.Path path)) stem)
  /\ ((forall c : CompressionFormat.t,
          c <> none ->
          PyStr.endswith (Pathlib.name (Pathlib.Path path)) (CompressionFormat.suffix c)
          = false) ->
      CompressionFormat.strip_suffix order path = Pathlib.Path path)
  /\ Pathlib.str (CompressionFormat.strip_suffix order (Pathlib.PStr "data.csv.gz"))
     = "data.csv".
Proof.
  intros Hperm.
  assert (Hin : forall c, In c order <-> c <> none).
  { intros c. rewrite <- list_non_empty_spec. split; apply Permutation_in;
      [exact Hperm | now apply Permutation_sym]. }
  assert (Hstrip : forall (q : Pathlib.PathLike) (c : CompressionFormat.t) (stem : string),
             c <> none ->
             Pathlib.name (Pathlib.Path q) = stem ++ CompressionFormat.suffix c ->
             CompressionFormat.strip_suffix order q
             = Pathlib.joinpath (Pathlib.parent (Pathlib.Path q)) stem).
  { intros q c stem Hc Hname. unfold CompressionFormat.strip_suffix.
    rewrite (find_unique _ order c).
    - rewrite Hname, slice_to_neg_app; [reflexivity |].
      destruct c; try (now elim Hc); discriminate.
    - now apply Hin.
    - apply endswith_spec. now exists stem.
    - intros y Hy Hey. apply (endswith_suffix_unique (Pathlib.name (Pathlib.Path q))).
      + now apply Hin.
      + exact Hc.
      + exact Hey.
      + apply endswith_spec. now exists stem. }
  split; [exact (Hstrip path) |]. split.
  - intros Hnone. unfold CompressionFormat.strip_suffix.
    rewrite find_none; [reflexivity |].
    intros y Hy. apply Hnone. now apply Hin.
  - rewrite (Hstrip (Pathlib.PStr "data.csv.gz") gz "data.csv");
      [reflexivity | discriminate | reflexivity].
Qed.

Lemma strip_suffix_removes_registered_suffix_witness :
  CompressionFormat.strip_suffix CompressionFormat.list_non_empty
    (Pathlib.PStr "/srv/logs/app.log.xz")
  = Pathlib.joinpath (Pathlib.parent (Pathlib.Path (Pathlib.PStr "/srv/logs/app.log.xz")))
      "app.log".
Proof.
  apply (proj1 (strip_suffix_removes_registered_suffix
                  CompressionFormat.list_non_empty
                  (Pathlib.PStr "/srv/logs/app.log.xz")
                  (Permutation_refl _)) xz "app.log").
  - discriminate.
  - reflexivity.
Defined.

(** ** [CompressionFormat.of] *)

Lemma getitem_name (c : CompressionFormat.t) :
  CompressionFormat.getitem (CompressionFormat.name c) = Ok c.
Proof. destruct c; reflexivity. Qed.

Lemma getitem_unknown (k : string) :
  (forall c, k <> CompressionFormat.name c) ->
  CompressionFormat.getitem k = Raise (KeyError k).
Proof.
  intros H. unfold CompressionFormat.getitem.
  rewrite find_none; [reflexivity |].
  intros c _. apply String.eqb_neq. intros E. now apply (H c).
Qed.

Lemma full_name_inj (a b : CompressionFormat.t) :
  CompressionFormat.full_name a = CompressionFormat.full_name b -> a = b.
Proof. destruct a, b; intros H; try reflexivity; vm_compute in H; discriminate H. Qed.

(** A full name is already stripped and in lower case. *)
Lemma full_name_normal (c : CompressionFormat.t) :
  PyStr.lower (PyStr.strip (CompressionFormat.full_name c))
  = CompressionFormat.full_name c.
Proof. destruct c; reflexivity. Qed.

Lemma members_perm_in (order : list CompressionFormat.t) (c : CompressionFormat.t) :
  Permutation order CompressionFormat.members -> In c order.
Proof.
  intros H. apply (Permutation_in c (Permutation_sym H)), members_complete.
Qed.

Lemma find_full_name (order : list CompressionFormat.t) (c : CompressionFormat.t) :
  Permutation order CompressionFormat.members ->
  find (fun f => String.eqb (CompressionFormat.full_name c) (CompressionFormat.full_name f))
    order = Some c.
Proof.
  intros Hperm. apply find_unique.
  - now apply members_perm_in.
  - apply String.eqb_refl.
  - intros y _ Hy. apply String.eqb_eq in Hy. symmetry. now apply full_name_inj.
Qed.

Lemma of_by_name (order : list CompressionFormat.t) (s : string) (c : CompressionFormat.t) :
  PyStr.lower (PyStr.strip s) = CompressionFormat.name c ->
  CompressionFormat.of_ order (CompressionFormat.OfStr s) = Ok c.
Proof. intros H. unfold CompressionFormat.of_. now rewrite H, getitem_name. Qed.

Lemma of_by_full_name (order : list CompressionFormat.t) (c : CompressionFormat.t) :
  Permutation order CompressionFormat.members ->
  CompressionFormat.of_ order (CompressionFormat.OfStr (CompressionFormat.full_name c))
  = Ok c.
Proof.
  intros Hperm. unfold CompressionFormat.of_. rewrite full_name_normal.
  destruct (CompressionFormat.getitem (CompressionFormat.full_name c)) as [c' | e] eqn:E.
  - destruct c; vm_compute in E; congruence.
  - destruct c; vm_compute in E; try discriminate E; injection E as <-;
      now rewrite find_full_name.
Qed.

Lemma of_unknown (order : list CompressionFormat.t) (s : string) :
  (forall c, PyStr.lower (PyStr.strip s) <> CompressionFormat.name c) ->
  (forall c, PyStr.lower (PyStr.strip s) <> CompressionFormat.full_name c) ->
  CompressionFormat.of_ order (CompressionFormat.OfStr s)
  = Raise (KeyError (PyStr.lower (PyStr.strip s))).
Proof.
  intros Hn Hf. unfold CompressionFormat.of_.
  rewrite getitem_unknown by exact Hn.
  rewrite find_none; [reflexivity |].
  intros f _. apply String.eqb_neq. intros ->.
  apply (Hf f). apply full_name_normal.
Qed.

(** C5 (amended).  Whatever the iteration order of [list()]: a token whose
    stripped, lower-cased form is a member name resolves to that member; a
    token equal to a full name resolves to its member; a token whose
    stripped, lower-cased form is neither a member name nor a full name
    fails with [KeyError]; a format passed in is returned as it is. *)
Theorem of_resolves_names (order : list CompressionFormat.t) :
  Permutation order CompressionFormat.members ->
  (forall (s : string) (c : CompressionFormat.t),
      PyStr.lower (PyStr.strip s) = CompressionFormat.name c ->
      CompressionFormat.of_ order (CompressionFormat.OfStr s) = Ok c)
  /\ (forall c : CompressionFormat.t,
         CompressionFormat.of_ order
           (CompressionFormat.OfStr (CompressionFormat.full_name c)) = Ok c)
  /\ (forall s : string,
         (forall c, PyStr.lower (PyStr.strip s) <> CompressionFormat.name c) ->
         (forall c, PyStr.lower (PyStr.strip s) <> CompressionFormat.full_name c) ->
         CompressionFormat.of_ order (CompressionFormat.OfStr s)
         = Raise (KeyError (PyStr.lower (PyStr.strip s))))
  /\ (forall c : CompressionFormat.t,
         CompressionFormat.of_ order (CompressionFormat.OfFormat c) = Ok c).
Proof.
  intros Hperm. split; [| split; [| split]].
  - apply of_by_name.
  - intros c. now apply of_by_full_name.
  - apply of_unknown.
  - reflexivity.
Qed.

Lemma of_resolves_names_witness :
  CompressionFormat.of_ CompressionFormat.list_ (CompressionFormat.OfStr " GZ ") = Ok gz
  /\ CompressionFormat.of_ CompressionFormat.list_ (CompressionFormat.OfStr "bzip2") = Ok bz2
  /\ CompressionFormat.of_ CompressionFormat.list_ (CompressionFormat.OfStr "brotli")
     = Raise (KeyError "brotli").
Proof.
  pose proof (of_resolves_names CompressionFormat.list_ (Permutation_refl _))
    as (H1 & H2 & H3 & _).
  split; [| split].
  - apply H1. reflexivity.
  - apply (H2 bz2).
  - apply (H3 "brotli"); intros c; destruct c; vm_compute; discriminate.
Defined.

(** C5 as stated fails: in no iteration order does ["g-zip"] resolve to
    the gzip format; the hyphen is not removed. *)
Lemma of_hyphen_not_tolerated :
  ~ (exists order : list CompressionFormat.t,
        Permutation order CompressionFormat.members
        /\ CompressionFormat.of_ order (CompressionFormat.OfStr "g-zip") = Ok gz).
Proof.
  intros (order & Hperm & H).
  rewrite (of_unknown order "g-zip") in H; [discriminate H | |];
    intros c; destruct c; vm_compute; discriminate.
Qed.

(** The fall-back on full names compares the token as it was given: a
    full name in another case, or with spaces around it, is not found. *)
Example of_full_name_is_compared_raw :
  CompressionFormat.of_ CompressionFormat.list_ (CompressionFormat.OfStr "GZip")
  = Raise (KeyError "gzip")
  /\ CompressionFormat.of_ CompressionFormat.list_ (CompressionFormat.OfStr " gzip ")
     = Raise (KeyError "gzip")
  /\ CompressionFormat.of_ CompressionFormat.list_ (CompressionFormat.OfStr "gzip")
     = Ok gz.
Proof. repeat split; reflexivity. Qed.

(** ** [SmartIo.write]: append *)

(** C7.  With ["a"] in the mode, a write to a path whose scheme resolves to
    lz4, or an atomic write to a path under any resolved scheme, raises
    [UnsupportedOperationError] and leaves the state as it was. *)
Theorem write_append_unsupported (rt : runtime) (order : list CompressionFormat.t)
  (p : Pathlib.PathLike) (content mode : string) (atomic : bool)
  (kw : SmartIo.kwargs) (st : OS.state) (c : CompressionFormat.t) :
  SmartIo.path_or_buff_compression order (SmartIo.PPath p) kw = Ok c ->
  PyStr.contains mode "a" = true ->
  c = lz4 \/ atomic = true ->
  exists msg,
    SmartIo.write rt order (SmartIo.PPath p) content mode atomic kw st
    = (Raise (UnsupportedOperationError msg), st).
Proof.
  intros Hc Ha Hor.
  unfold SmartIo.write, OS.bind, OS.lift. rewrite Hc.
  destruct (decide (c = lz4)) as [-> | Hne].
  - rewrite Ha. eexists. reflexivity.
  - destruct Hor as [-> | ->]; [now elim Hne |].
    rewrite Ha. eexists. reflexivity.
Qed.

Lemma write_append_unsupported_witness :
  exists msg,
    SmartIo.write cpython_tagging CompressionFormat.list_
      (SmartIo.PPath (Pathlib.PStr "data.csv.gz")) "x" "a" true
      SmartIo.no_kwargs empty_state
    = (Raise (UnsupportedOperationError msg), empty_state).
Proof.
  apply (write_append_unsupported cpython_tagging CompressionFormat.list_
           (Pathlib.PStr "data.csv.gz") "x" "a" true SmartIo.no_kwargs empty_state gz).
  - reflexivity.
  - reflexivity.
  - right. reflexivity.
Defined.

(** ** [SmartIo.verify_can_read_files] and [SmartIo.read] *)

(** C10.  With [attempt=True], when the two checks on a path pass and
    opening it for reading fails with an [OSError], the exception raised
    is [WritePermissionsError], which is not a [ReadPermissionsError]. *)
Theorem verify_can_read_files_attempt_raises_write_error
  (p : Pathlib.PathLike) (rest : list Pathlib.PathLike) (missing_ok : bool)
  (st st' : OS.state) (e : exn) :
  OS.exists_ (Pathlib.Path p) st && negb (OS.is_file (Pathlib.Path p) st) = false ->
  (negb missing_ok || OS.exists_ (Pathlib.Path p) st)
  && negb (OS.access_R (Pathlib.Path p) st) = false ->
  OS.read_file (Pathlib.Path p) st = (Raise e, st') ->
  is_OSError e = true ->
  SmartIo.verify_can_read_files (p :: rest) missing_ok true st
  = (Raise (WritePermissionsError
              ("Failed to open " ++ Pathlib.str (Pathlib.Path p) ++ " for read")
              (Pathlib.str (Pathlib.Path p))), st')
  /\ is_ReadPermissionsError
       (WritePermissionsError
          ("Failed to open " ++ Pathlib.str (Pathlib.Path p) ++ " for read")
          (Pathlib.str (Pathlib.Path p))) = false.
Proof.
  intros H1 H2 Hopen He. split; [| reflexivity].
  simpl. rewrite H1, H2, Hopen, He. reflexivity.
Qed.

Lemma verify_can_read_files_attempt_raises_write_error_witness :
  SmartIo.verify_can_read_files [Pathlib.PStr "missing.txt"] true true empty_state
  = (Raise (WritePermissionsError "Failed to open missing.txt for read" "missing.txt"),
     empty_state).
Proof.
  apply (verify_can_read_files_attempt_raises_write_error
           (Pathlib.PStr "missing.txt") [] true empty_state empty_state
           FileNotFoundError);
    reflexivity.
Defined.

Lemma pandas_scheme_value (c : CompressionFormat.t) :
  c <> lz4 -> SmartIo.pandas_scheme (CompressionFormat.pandas_value c) = Ok c.
Proof. destruct c; intros H; try reflexivity. now elim H. Qed.

Lemma compression_of_path (order : list CompressionFormat.t) (p : Pathlib.PathLike) :
  SmartIo.path_or_buff_compression order (SmartIo.PPath p) SmartIo.no_kwargs
  = Ok (CompressionFormat.from_path p).
Proof. reflexivity. Qed.






(** ** [SmartIo.tmp_path] *)

(** C3: the code does otherwise.  Under CPython, [tmp_path] raises
    [ValueError] for every path and tag, because [isoformat] rejects the
    [timespec] it is called with; nothing is returned. *)
Theorem tmp_path_raises_under_cpython
  (lz4_frame : bool) (encode : CompressionFormat.t -> string -> string)
  (decode : CompressionFormat.t -> string -> result string)
  (lz4_decode : string -> result string) (lz4_empty : string) (buffer_size : nat)
  (path : Pathlib.PathLike) (extra : string) (st : OS.state) :
  SmartIo.tmp_path (cpython lz4_frame encode decode lz4_decode lz4_empty buffer_size)
    path extra st
  = (Raise (ValueError "Unknown timespec value"), st).
Proof. reflexivity. Qed.

(** What [tmp_path] returns in a run time whose [isoformat] accepts the
    [timespec]. *)
Lemma tmp_path_shape (rt : runtime) (path : Pathlib.PathLike) (extra stamp : string)
  (st : OS.state) :
  isoformat rt (OS.now st) "ns" = Ok stamp ->
  SmartIo.tmp_path rt path extra st
  = (Ok (Pathlib.joinpath (Pathlib.parent (Pathlib.Path path))
           (".__" ++ extra ++ "."
            ++ PyStr.remove_char (PyStr.remove_char stamp ":") "-"
            ++ PyStr.join (Pathlib.suffixes (Pathlib.Path path)))), st).
Proof. intros H. unfold SmartIo.tmp_path, OS.bind. now rewrite H. Qed.

(** ** Effects of the steps of [SmartIo.write] *)

(** A sequence raises as soon as what follows its first step does. *)
Lemma bind_raises {A B : Type} (m : OS.io A) (k : A -> OS.io B) (st : OS.state) :
  (forall a st1, m st = (Ok a, st1) -> exists e st', k a st1 = (Raise e, st')) ->
  exists e st', OS.bind m k st = (Raise e, st').
Proof.
  intros H. unfold OS.bind. destruct (m st) as [[a | e] st1]; eauto.
Qed.

Lemma lz4_write_nothing_raises (rt : runtime) (p : Pathlib.PurePath)
  (st st' : OS.state) (r : result unit) :
  SmartIo.lz4_write_nothing rt p st = (r, st') -> exists e, r = Raise e.
Proof.
  unfold SmartIo.lz4_write_nothing, OS.bind, OS.raise.
  destruct (lz4_frame rt).
  - destruct (OS.open_write false p st) as [[[] | e1] st1];
      intros H; injection H as <- <-; eauto.
  - intros H; injection H as <- <-. eauto.
Qed.

Lemma lz4_write_nothing_then_raises {B : Type} (rt : runtime) (p : Pathlib.PurePath)
  (k : unit -> OS.io B) (st : OS.state) :
  exists e st', OS.bind (SmartIo.lz4_write_nothing rt p) k st = (Raise e, st').
Proof.
  apply bind_raises. intros a st1 H.
  destruct (lz4_write_nothing_raises _ _ _ _ _ H) as [e He]. discriminate He.
Qed.

(** ** Splitting and joining strings *)

(** The first piece of a split holds no separator, and is the whole string
    when the string holds none. *)
Lemma split_first (s : string) (c : ascii) :
  exists w ws,
    PyStr.split s c = w :: ws
    /\ PyStr.contains w c = false
    /\ (PyStr.contains s c = false -> w = s /\ ws = []).
Proof.
  induction s as [| b s (w & ws & E & Hw & Hall)]; simpl.
  - exists "", []. auto.
  - destruct (Ascii.eqb b c) eqn:Eb; simpl.
    + exists "", (PyStr.split s c). repeat split; discriminate.
    + rewrite E. exists (String b w), ws. simpl. rewrite Eb, Hw.
      split; [reflexivity |]. split; [reflexivity |].
      intros H. destruct (Hall H) as [-> ->]. auto.
Qed.


(** ** [SmartIo.write] with [atomic=True] *)




(** X25.  Under CPython the branches of [write] that call [tmp_path] are
    dead ends: for a path whose scheme resolves and a mode without ["a"],
    every atomic write, and every write under lz4, raises
    [ValueError("Unknown timespec value")] before a file is touched, and
    the state is as before. *)
Lemma write_stops_at_tmp_path_under_cpython
  (lz4_frame : bool) (encode : CompressionFormat.t -> string -> string)
  (decode : CompressionFormat.t -> string -> result string)
  (lz4_decode : string -> result string) (lz4_empty : string) (buffer_size : nat)
  (order : list CompressionFormat.t) (p : Pathlib.PathLike) (content mode : string)
  (atomic : bool) (kw : SmartIo.kwargs) (st : OS.state) (c : CompressionFormat.t) :
  SmartIo.path_or_buff_compression order (SmartIo.PPath p) kw = Ok c ->
  PyStr.contains mode "a" = false ->
  c = lz4 \/ atomic = true ->
  SmartIo.write (cpython lz4_frame encode decode lz4_decode lz4_empty buffer_size) order
    (SmartIo.PPath p) content mode atomic kw st
  = (Raise (ValueError "Unknown timespec value"), st).
Proof.
  intros Hc Ha Hor. unfold SmartIo.write, OS.bind, OS.lift. rewrite Hc.
  destruct (decide (c = lz4)) as [-> | Hne].
  - rewrite Ha. reflexivity.
  - destruct Hor as [-> | ->]; [now elim Hne |]. rewrite Ha. reflexivity.
Qed.

(** ** [SmartIo.write] followed by [SmartIo.read] *)

Lemma append_empty_l (s : string) : "" ++ s = s.
Proof. reflexivity. Qed.

(** On a device that does not fail, a write through a fresh handle on an
    empty file either reaches the file or is held back whole. *)
Lemma handle_write_fresh (size : nat) (P : Pathlib.PurePath) (data : string)
  (st : OS.state) (rd wr : bool) :
  OS.handle st = Some (P, "") ->
  OS.files st !! P = Some (OS.File rd wr "") ->
  OS.fault_after st = None ->
  exists st1,
    OS.handle_write size data st = (Ok tt, st1)
    /\ OS.fault_after st1 = None
    /\ ((OS.handle st1 = Some (P, "")
         /\ OS.files st1 !! P = Some (OS.File rd wr data))
        \/ (OS.handle st1 = Some (P, data)
            /\ OS.files st1 !! P = Some (OS.File rd wr ""))).
Proof.
  intros Hh Hf Hfa. unfold OS.handle_write. rewrite Hh, append_empty_l.
  destruct (size <? String.length data)%nat.
  - unfold OS.write_file. rewrite Hf, Hfa, append_empty_l.
    eexists. split; [reflexivity |]. split; [exact Hfa |].
    left. split; [reflexivity |]. simpl. now rewrite lookup_insert_eq.
  - eexists. split; [reflexivity |]. split; [exact Hfa |].
    right. split; [reflexivity | exact Hf].
Qed.

(** The close then leaves the whole text in the file. *)
Lemma close_after_write (P : Pathlib.PurePath) (data : string)
  (st1 : OS.state) (rd wr : bool) :
  OS.fault_after st1 = None ->
  (OS.handle st1 = Some (P, "")
   /\ OS.files st1 !! P = Some (OS.File rd wr data))
  \/ (OS.handle st1 = Some (P, data)
      /\ OS.files st1 !! P = Some (OS.File rd wr "")) ->
  exists st2,
    OS.close st1 = (Ok tt, st2)
    /\ OS.files st2 !! P = Some (OS.File rd wr data).
Proof.
  intros Hfa [[Hh Hf] | [Hh Hf]]; unfold OS.close; rewrite Hh.
  - simpl. eexists. split; [reflexivity | exact Hf].
  - destruct (String.eqb data "") eqn:Ed.
    + apply String.eqb_eq in Ed. subst data.
      eexists. split; [reflexivity | exact Hf].
    + unfold OS.write_file. rewrite Hf, Hfa, append_empty_l.
      eexists. split; [reflexivity |]. simpl. now rewrite lookup_insert_eq.
Qed.

(** Opening a handle for a plain write on a path that is free or holds
    an accessible file. *)
Lemma get_handle_w_plain (p : Pathlib.PathLike) (c : CompressionFormat.t)
  (st : OS.state) :
  c <> lz4 ->
  OS.fault_after st = None ->
  (OS.files st !! Pathlib.Path p = None
   \/ exists d, OS.files st !! Pathlib.Path p = Some (OS.File true true d)) ->
  exists st0,
    SmartIo.get_handle_w (SmartIo.PPath p) "w" (CompressionFormat.pandas_value c) st
    = (Ok (SmartIo.PPath p, c), st0)
    /\ OS.handle st0 = Some (Pathlib.Path p, "")
    /\ OS.files st0 !! Pathlib.Path p = Some (OS.File true true "")
    /\ OS.fault_after st0 = None.
Proof.
  intros Hc Hfa Hdest.
  unfold SmartIo.get_handle_w, OS.bind, OS.lift, OS.ret.
  rewrite pandas_scheme_value by exact Hc.
  unfold OS.open_write. simpl PyStr.contains.
  destruct Hdest as [Hd | [d Hd]]; rewrite Hd;
    eexists; (split; [reflexivity |]); simpl; rewrite lookup_insert_eq; auto.
Qed.

(** For a scheme other than lz4 whose codec round-trips the text, a plain
    write to a path that is free or holds an accessible file, followed by
    a read of that path, gives the text back, whether the handle wrote
    the text during the call or at the close. *)
Lemma write_then_read_roundtrip (rt : runtime) (order : list CompressionFormat.t)
  (p : Pathlib.PathLike) (content : string) (st : OS.state) :
  CompressionFormat.from_path p <> lz4 ->
  decode rt (CompressionFormat.from_path p)
    (encode rt (CompressionFormat.from_path p) content) = Ok content ->
  OS.fault_after st = None ->
  (OS.files st !! Pathlib.Path p = None
   \/ exists d, OS.files st !! Pathlib.Path p = Some (OS.File true true d)) ->
  exists st',
    SmartIo.write rt order (SmartIo.PPath p) content "w" false SmartIo.no_kwargs st
    = (Ok None, st')
    /\ SmartIo.read rt order (SmartIo.PPath p) "r" SmartIo.no_kwargs st'
       = (Ok content, st').
Proof.
  intros Hne Hrt Hfa Hdest.
  destruct (get_handle_w_plain p _ st Hne Hfa Hdest) as (st0 & Hg & Hh0 & Hf0 & Hfa0).
  destruct (handle_write_fresh (buffer_size rt) (Pathlib.Path p)
              (encode rt (CompressionFormat.from_path p) content)
              st0 true true Hh0 Hf0 Hfa0)
    as (st1 & Hw & Hfa1 & Hcases).
  destruct (close_after_write _ _ st1 true true Hfa1 Hcases) as (st2 & Hc & Hf2).
  exists st2. split.
  - unfold SmartIo.write, OS.bind at 1, OS.lift. rewrite compression_of_path.
    destruct (decide (CompressionFormat.from_path p = lz4)) as [E | _]; [now elim Hne |].
    unfold OS.bind at 1. rewrite Hg.
    unfold OS.with_close, OS.bind.
    change (SmartIo.handle_write rt (SmartIo.PPath p, CompressionFormat.from_path p) content)
      with (OS.handle_write (buffer_size rt)
              (encode rt (CompressionFormat.from_path p) content)).
    rewrite Hw. unfold OS.ret. now rewrite Hc.
  - unfold SmartIo.read, OS.bind at 1, OS.lift. rewrite compression_of_path.
    destruct (decide (CompressionFormat.from_path p = lz4)) as [E | _]; [now elim Hne |].
    unfold SmartIo.get_handle_read, OS.bind, OS.lift.
    rewrite pandas_scheme_value by exact Hne.
    unfold OS.read_file. now rewrite Hf2, Hrt.
Qed.

(** C2: the code does otherwise for lz4.  A write to a path with the lz4
    suffix raises in every run time, whatever the content, the mode and
    [atomic]; there is nothing to read back. *)
Theorem write_lz4_always_raises (rt : runtime) (order : list CompressionFormat.t)
  (p : Pathlib.PathLike) (content mode : string) (atomic : bool) (st : OS.state) :
  CompressionFormat.from_path p = lz4 ->
  exists e st',
    SmartIo.write rt order (SmartIo.PPath p) content mode atomic SmartIo.no_kwargs st
    = (Raise e, st').
Proof.
  intros Hlz. unfold SmartIo.write.
  apply bind_raises. intros c st1 Hc.
  unfold OS.lift in Hc. rewrite compression_of_path, Hlz in Hc. injection Hc as <- <-.
  destruct (decide (lz4 = lz4)) as [_ | N]; [| now elim N].
  destruct (PyStr.contains mode "a"); [unfold OS.raise; eauto |].
  apply bind_raises. intros path st1 _.
  apply bind_raises. intros tmp st2 _.
  apply bind_raises. intros f st3 _.
  apply bind_raises. intros [] st4 _.
  destruct atomic.
  - apply bind_raises. intros tmp2 st5 _. apply lz4_write_nothing_then_raises.
  - apply lz4_write_nothing_then_raises.
Qed.

Lemma write_lz4_always_raises_witness :
  exists e st',
    SmartIo.write cpython_tagging CompressionFormat.list_
      (SmartIo.PPath (Pathlib.PStr "data.txt.lz4")) "hello" "w" false
      SmartIo.no_kwargs empty_state
    = (Raise e, st').
Proof.
  apply (write_lz4_always_raises cpython_tagging CompressionFormat.list_
           (Pathlib.PStr "data.txt.lz4") "hello" "w" false empty_state).
  reflexivity.
Defined.

Example write_lz4_cpython :
  SmartIo.write cpython_tagging CompressionFormat.list_
    (SmartIo.PPath (Pathlib.PStr "data.txt.lz4")) "hello" "w" false
    SmartIo.no_kwargs empty_state
  = (Raise (ValueError "Unknown timespec value"), empty_state).
Proof. reflexivity. Qed.

Example write_lz4_ns :
  fst (SmartIo.write ns_tagging CompressionFormat.list_
         (SmartIo.PPath (Pathlib.PStr "data.txt.lz4")) "hello" "w" false
         SmartIo.no_kwargs empty_state)
  = Raise (TypeError "write() missing 1 required positional argument").
Proof. vm_compute. reflexivity. Qed.

Example write_read_gz :
  exists st',
    SmartIo.write cpython_tagging CompressionFormat.list_
      (SmartIo.PPath (Pathlib.PStr "data.csv.gz")) "hello" "w" false
      SmartIo.no_kwargs empty_state = (Ok None, st')
    /\ SmartIo.read cpython_tagging CompressionFormat.list_
         (SmartIo.PPath (Pathlib.PStr "data.csv.gz")) "r" SmartIo.no_kwargs st'
       = (Ok "hello", st').
Proof.
  apply write_then_read_roundtrip.
  - discriminate.
  - vm_compute. reflexivity.
  - reflexivity.
  - left. reflexivity.
Qed.

(** * Further properties of the code *)

(** ** More on the registry: [from_path], [strip_suffix] and [split] together *)

Lemma from_suffix_compressed (s : string) (c : CompressionFormat.t) :
  CompressionFormat.from_suffix s = c -> c <> none -> s = CompressionFormat.suffix c.
Proof.
  unfold CompressionFormat.from_suffix.
  destruct (find _ CompressionFormat.members) as [c' |] eqn:E.
  - intros <- _. apply find_some in E as [_ E]. now apply String.eqb_eq in E.
  - intros <- H. now elim H.
Qed.

Lemma endswith_slice_from (s : string) (i : nat) :
  PyStr.endswith s (PyStr.slice_from s i) = true.
Proof.
  unfold PyStr.endswith, PyStr.slice_from. apply bool_decide_eq_true.
  rewrite chars_of_chars. exists (take i (PyStr.chars s)).
  symmetry. apply take_drop.
Qed.

Lemma endswith_refl (s : string) : PyStr.endswith s s = true.
Proof. apply endswith_spec. now exists "". Qed.

(** The file name of a path with components is its last component. *)
Lemma parts_name (p : Pathlib.PurePath) :
  Pathlib.name p <> "" ->
  Pathlib.parts p = (removelast (Pathlib.parts p) ++ [Pathlib.name p])%list.
Proof.
  unfold Pathlib.name. intros H.
  destruct (Pathlib.parts p) as [| x xs] eqn:E; [now elim H |].
  apply app_removelast_last. discriminate.
Qed.

Lemma from_path_name_endswith (p : Pathlib.PathLike) (c : CompressionFormat.t) :
  c <> none ->
  PyStr.endswith (Pathlib.name (Pathlib.Path p)) (CompressionFormat.suffix c) = true ->
  CompressionFormat.from_path p = c.
Proof.
  intros Hc He. apply endswith_spec in He as [stem Hn].
  assert (Hne : Pathlib.name (Pathlib.Path p) <> "").
  { rewrite Hn. destruct c; try (now elim Hc); destruct stem; discriminate. }
  rewrite <- (from_path_registered_suffix (Pathlib.root (Pathlib.Path p))
                (removelast (Pathlib.parts (Pathlib.Path p))) stem c Hc).
  rewrite <- Hn, <- (parts_name _ Hne).
  destruct (Pathlib.Path p) as [r ps] eqn:E. simpl.
  unfold CompressionFormat.from_path. now rewrite E.
Qed.

Lemma from_path_compressed_endswith (p : Pathlib.PathLike) (c : CompressionFormat.t) :
  c <> none ->
  CompressionFormat.from_path p = c ->
  PyStr.endswith (Pathlib.name (Pathlib.Path p)) (CompressionFormat.suffix c) = true.
Proof.
  intros Hc H. unfold CompressionFormat.from_path in H.
  apply from_suffix_compressed in H; [| exact Hc].
  rewrite <- H. unfold CompressionFormat.from_path_suffix.
  destruct (_ && _); [apply endswith_refl |].
  unfold Pathlib.suffix. destruct (_ && _)%Z.
  - apply endswith_slice_from.
  - apply endswith_spec. exists (Pathlib.name (Pathlib.Path p)).
    clear. induction (Pathlib.name (Pathlib.Path p)) as [| a s IH]; [reflexivity |].
    change (String a s = String a (s ++ "")). now rewrite <- IH.
Qed.

(** X1.  [from_path] gives a format other than [none] exactly when the
    file name ends with that format's suffix. *)
Theorem from_path_iff_name_endswith (p : Pathlib.PathLike) (c : CompressionFormat.t) :
  c <> none ->
  (CompressionFormat.from_path p = c
   <-> PyStr.endswith (Pathlib.name (Pathlib.Path p)) (CompressionFormat.suffix c) = true).
Proof.
  intros Hc. split.
  - now apply from_path_compressed_endswith.
  - now apply from_path_name_endswith.
Qed.

Lemma from_path_iff_name_endswith_witness :
  CompressionFormat.from_path (Pathlib.PStr "/var/log/app.log.bz2") = bz2
  <-> PyStr.endswith (Pathlib.name (Pathlib.Path (Pathlib.PStr "/var/log/app.log.bz2")))
        (CompressionFormat.suffix bz2) = true.
Proof.
  apply (from_path_iff_name_endswith (Pathlib.PStr "/var/log/app.log.bz2") bz2).
  discriminate.
Defined.

Lemma order_non_empty_in (order : list CompressionFormat.t) (c : CompressionFormat.t) :
  Permutation order CompressionFormat.list_non_empty -> (In c order <-> c <> none).
Proof.
  intros Hperm. rewrite <- list_non_empty_spec. split; apply Permutation_in;
    [exact Hperm | now apply Permutation_sym].
Qed.

Lemma strip_suffix_stem (order : list CompressionFormat.t) (p : Pathlib.PathLike)
  (c : CompressionFormat.t) (stem : string) :
  Permutation order CompressionFormat.list_non_empty ->
  c <> none ->
  Pathlib.name (Pathlib.Path p) = stem ++ CompressionFormat.suffix c ->
  CompressionFormat.strip_suffix order p
  = Pathlib.joinpath (Pathlib.parent (Pathlib.Path p)) stem.
Proof.
  intros Hperm Hc Hname. unfold CompressionFormat.strip_suffix.
  rewrite (find_unique _ order c).
  - rewrite Hname, slice_to_neg_app; [reflexivity |].
    destruct c; try (now elim Hc); discriminate.
  - now apply (order_non_empty_in order c Hperm).
  - apply endswith_spec. now exists stem.
  - intros y Hy Hey. apply (endswith_suffix_unique (Pathlib.name (Pathlib.Path p))).
    + now apply (order_non_empty_in order y Hperm).
    + exact Hc.
    + exact Hey.
    + apply endswith_spec. now exists stem.
Qed.

(** X2.  [strip_suffix] follows [from_path], in every iteration order:
    when [from_path] gives a format other than [none], [strip_suffix]
    removes that format's suffix from the file name; when [from_path]
    gives [none], [strip_suffix] returns the path as it is. *)
Theorem strip_suffix_follows_from_path
  (order : list CompressionFormat.t) (p : Pathlib.PathLike) :
  Permutation order CompressionFormat.list_non_empty ->
  (CompressionFormat.from_path p <> none ->
   exists stem,
     Pathlib.name (Pathlib.Path p)
     = stem ++ CompressionFormat.suffix (CompressionFormat.from_path p)
     /\ CompressionFormat.strip_suffix order p
        = Pathlib.joinpath (Pathlib.parent (Pathlib.Path p)) stem)
  /\ (CompressionFormat.from_path p = none ->
      CompressionFormat.strip_suffix order p = Pathlib.Path p).
Proof.
  intros Hperm. split.
  - intros Hc.
    pose proof (from_path_compressed_endswith p _ Hc eq_refl) as He.
    apply endswith_spec in He as [stem Hn].
    exists stem. split; [exact Hn |].
    exact (strip_suffix_stem order p _ stem Hperm Hc Hn).
  - intros Hn. unfold CompressionFormat.strip_suffix.
    rewrite find_none; [reflexivity |].
    intros y Hy. apply (order_non_empty_in order y Hperm) in Hy.
    destruct (PyStr.endswith _ _) eqn:E; [| reflexivity].
    apply (from_path_name_endswith p y Hy) in E. congruence.
Qed.

Lemma strip_suffix_follows_from_path_witness :
  (exists stem,
      Pathlib.name (Pathlib.Path (Pathlib.PStr "run/out.tar.zst"))
      = stem ++ CompressionFormat.suffix
                  (CompressionFormat.from_path (Pathlib.PStr "run/out.tar.zst"))
      /\ CompressionFormat.strip_suffix CompressionFormat.list_non_empty
           (Pathlib.PStr "run/out.tar.zst")
         = Pathlib.joinpath
             (Pathlib.parent (Pathlib.Path (Pathlib.PStr "run/out.tar.zst"))) stem)
  /\ CompressionFormat.strip_suffix CompressionFormat.list_non_empty
       (Pathlib.PStr "run/out.tar")
     = Pathlib.Path (Pathlib.PStr "run/out.tar").
Proof.
  split.
  - apply (proj1 (strip_suffix_follows_from_path CompressionFormat.list_non_empty
                    (Pathlib.PStr "run/out.tar.zst") (Permutation_refl _))).
    vm_compute. discriminate.
  - apply (proj2 (strip_suffix_follows_from_path CompressionFormat.list_non_empty
                    (Pathlib.PStr "run/out.tar") (Permutation_refl _))).
    reflexivity.
Defined.

Lemma startswith_absent (s : string) (c : ascii) :
  PyStr.contains s c = false -> PyStr.startswith s (String c "") = false.
Proof.
  intros H. unfold PyStr.startswith. apply bool_decide_eq_false.
  intros [k Hk]. destruct s as [| a s]; [discriminate Hk |].
  simpl in Hk. injection Hk as -> _.
  simpl in H. now rewrite Ascii.eqb_refl in H.
Qed.

(** A string without a slash that is neither empty nor a single dot is
    parsed as one relative component. *)
Lemma parse_single (s : string) :
  PyStr.contains s "/" = false -> s <> "" -> s <> "." ->
  Pathlib.parse s = Pathlib.mkPath "" [s].
Proof.
  intros Hs Hne Hdot. unfold Pathlib.parse, Pathlib.splitroot.
  rewrite (startswith_absent s "/" Hs).
  destruct (split_first s "/") as (w & ws & E & _ & Hall).
  destruct (Hall Hs) as [-> ->]. rewrite E.
  now rewrite filter_cons_True, filter_nil by (split; assumption).
Qed.

Lemma joinpath_empty (q : Pathlib.PurePath) : Pathlib.joinpath q "" = q.
Proof.
  destruct q as [r ps]. unfold Pathlib.joinpath. simpl.
  now rewrite app_nil_r.
Qed.

Lemma joinpath_dot (q : Pathlib.PurePath) : Pathlib.joinpath q "." = q.
Proof.
  destruct q as [r ps]. unfold Pathlib.joinpath. simpl.
  now rewrite app_nil_r.
Qed.

(** X3.  A file name that is only a registered suffix, or a dot followed
    by one, is taken away whole: [strip_suffix] returns the parent
    directory. *)
Theorem strip_suffix_bare_suffix_gives_parent
  (order : list CompressionFormat.t) (p : Pathlib.PathLike) (c : CompressionFormat.t) :
  Permutation order CompressionFormat.list_non_empty ->
  c <> none ->
  Pathlib.name (Pathlib.Path p) = CompressionFormat.suffix c
  \/ Pathlib.name (Pathlib.Path p) = "." ++ CompressionFormat.suffix c ->
  CompressionFormat.strip_suffix order p = Pathlib.parent (Pathlib.Path p).
Proof.
  intros Hperm Hc [Hn | Hn].
  - rewrite (strip_suffix_stem order p c "" Hperm Hc Hn). apply joinpath_empty.
  - rewrite (strip_suffix_stem order p c "." Hperm Hc Hn). apply joinpath_dot.
Qed.

Lemma strip_suffix_bare_suffix_gives_parent_witness :
  CompressionFormat.strip_suffix CompressionFormat.list_non_empty
    (Pathlib.PStr "backup/.gz")
  = Pathlib.Path (Pathlib.PStr "backup").
Proof.
  apply (strip_suffix_bare_suffix_gives_parent CompressionFormat.list_non_empty
           (Pathlib.PStr "backup/.gz") gz (Permutation_refl _)).
  - discriminate.
  - left. reflexivity.
Defined.

(** X4.  Behind any other stem without a slash, [strip_suffix] changes
    the last component only: the result has the parent of the path and
    the stem as its file name. *)
Theorem strip_suffix_keeps_directory
  (order : list CompressionFormat.t) (p : Pathlib.PathLike) (c : CompressionFormat.t)
  (stem : string) :
  Permutation order CompressionFormat.list_non_empty ->
  c <> none ->
  Pathlib.name (Pathlib.Path p) = stem ++ CompressionFormat.suffix c ->
  stem <> "" -> stem <> "." -> PyStr.contains stem "/" = false ->
  CompressionFormat.strip_suffix order p
  = Pathlib.mkPath (Pathlib.root (Pathlib.Path p))
      (removelast (Pathlib.parts (Pathlib.Path p)) ++ [stem])%list
  /\ Pathlib.parent (CompressionFormat.strip_suffix order p)
     = Pathlib.parent (Pathlib.Path p)
  /\ Pathlib.name (CompressionFormat.strip_suffix order p) = stem.
Proof.
  intros Hperm Hc Hn Hne Hdot Hslash.
  assert (E : CompressionFormat.strip_suffix order p
              = Pathlib.mkPath (Pathlib.root (Pathlib.Path p))
                  (removelast (Pathlib.parts (Pathlib.Path p)) ++ [stem])%list).
  { rewrite (strip_suffix_stem order p c stem Hperm Hc Hn).
    unfold Pathlib.joinpath. now rewrite (parse_single stem Hslash Hne Hdot). }
  rewrite E. split; [reflexivity |]. split.
  - unfold Pathlib.parent. simpl. now rewrite removelast_last.
  - unfold Pathlib.name. simpl. apply last_last.
Qed.

Lemma strip_suffix_keeps_directory_witness :
  Pathlib.parent (CompressionFormat.strip_suffix CompressionFormat.list_non_empty
                    (Pathlib.PStr "/srv/data/table.csv.xz"))
  = Pathlib.parent (Pathlib.Path (Pathlib.PStr "/srv/data/table.csv.xz"))
  /\ Pathlib.name (CompressionFormat.strip_suffix CompressionFormat.list_non_empty
                     (Pathlib.PStr "/srv/data/table.csv.xz"))
     = "table.csv".
Proof.
  apply (strip_suffix_keeps_directory CompressionFormat.list_non_empty
           (Pathlib.PStr "/srv/data/table.csv.xz") xz "table.csv" (Permutation_refl _));
    (discriminate || reflexivity).
Defined.

(** X5.  [split], in every iteration order: when the path written as a
    string ends with the suffix of a format other than [none], it returns
    the rest of the string as a path, with that format; when the string
    ends with no such suffix, it returns the path with [none]. *)
Theorem split_by_registered_suffix
  (order : list CompressionFormat.t) (p : Pathlib.PathLike) (s : string) :
  Permutation order CompressionFormat.list_non_empty ->
  s = match p with Pathlib.PStr x => x | Pathlib.PPure q => Pathlib.str q end ->
  (forall (c : CompressionFormat.t) (stem : string),
      c <> none -> s = stem ++ CompressionFormat.suffix c ->
      CompressionFormat.split order p = (Pathlib.parse stem, c))
  /\ ((forall c : CompressionFormat.t,
          c <> none -> PyStr.endswith s (CompressionFormat.suffix c) = false) ->
      CompressionFormat.split order p = (Pathlib.parse s, none)).
Proof.
  intros Hperm ->. split.
  - intros c stem Hc Hs. unfold CompressionFormat.split.
    rewrite (find_unique _ order c).
    + rewrite Hs, slice_to_neg_app; [reflexivity |].
      destruct c; try (now elim Hc); discriminate.
    + now apply (order_non_empty_in order c Hperm).
    + apply endswith_spec. now exists stem.
    + intros y Hy Hey. rewrite Hs in Hey.
      apply (endswith_suffix_unique (stem ++ CompressionFormat.suffix c)).
      * now apply (order_non_empty_in order y Hperm).
      * exact Hc.
      * exact Hey.
      * apply endswith_spec. now exists stem.
  - intros Hnone. unfold CompressionFormat.split.
    rewrite find_none; [reflexivity |].
    intros y Hy. apply Hnone. now apply (order_non_empty_in order y Hperm).
Qed.

Lemma split_by_registered_suffix_witness :
  CompressionFormat.split CompressionFormat.list_non_empty
    (Pathlib.PStr "out/report.txt.bz2")
  = (Pathlib.parse "out/report.txt", bz2)
  /\ CompressionFormat.split CompressionFormat.list_non_empty
       (Pathlib.PStr "out/report.txt")
     = (Pathlib.parse "out/report.txt", none).
Proof.
  split.
  - apply (proj1 (split_by_registered_suffix CompressionFormat.list_non_empty
                    (Pathlib.PStr "out/report.txt.bz2") _ (Permutation_refl _) eq_refl)
             bz2 "out/report.txt"); [discriminate | reflexivity].
  - apply (proj2 (split_by_registered_suffix CompressionFormat.list_non_empty
                    (Pathlib.PStr "out/report.txt") _ (Permutation_refl _) eq_refl)).
    intros c Hc. destruct c; try (now elim Hc); reflexivity.
Defined.

(** X6.  [all_suffixes()] has one element for each of the seven formats,
    the empty suffix of [none] among them, and [from_suffix] gives [none]
    for every string outside it. *)
Theorem all_suffixes_covers_registry :
  size CompressionFormat.all_suffixes = length CompressionFormat.members
  /\ (forall s : string,
         s ∈ CompressionFormat.all_suffixes
         <-> exists c, CompressionFormat.suffix c = s)
  /\ (forall s : string,
         s ∉ CompressionFormat.all_suffixes -> CompressionFormat.from_suffix s = none).
Proof.
  assert (Hin : forall s : string,
             s ∈ CompressionFormat.all_suffixes
             <-> exists c, CompressionFormat.suffix c = s).
  { intros s. unfold CompressionFormat.all_suffixes.
    rewrite elem_of_list_to_set, list_elem_of_fmap. split.
    - intros (c & -> & _). now exists c.
    - intros (c & <-). exists c. split; [reflexivity |].
      apply list_elem_of_In, members_complete. }
  split; [| split; [exact Hin |]].
  - vm_compute. reflexivity.
  - intros s Hs. apply from_suffix_unregistered.
    intros c Hc. apply Hs, Hin. now exists c.
Qed.

Lemma all_suffixes_covers_registry_witness :
  CompressionFormat.from_suffix ".rar" = none.
Proof.
  pose proof all_suffixes_covers_registry as (_ & Hin & Hout).
  apply Hout. intros H. apply Hin in H as [c Hc]. destruct c; discriminate Hc.
Defined.

(** X7.  The properties of a format agree on what is compressed: for
    every format, [is_compressed], a non-empty [suffix], a [name_or_none]
    and a [pandas_value] that are not [None] all hold, or none does; and
    they hold for every format but [none]. *)
Theorem is_compressed_agrees (c : CompressionFormat.t) :
  (CompressionFormat.is_compressed c = true <-> c <> none)
  /\ (CompressionFormat.is_compressed c = true <-> CompressionFormat.suffix c <> "")
  /\ (CompressionFormat.is_compressed c = true
      <-> CompressionFormat.name_or_none c = Some (CompressionFormat.name c))
  /\ (CompressionFormat.is_compressed c = true
      <-> CompressionFormat.pandas_value c <> None)
  /\ (CompressionFormat.is_compressed c = false
      <-> CompressionFormat.name_or_none c = None
          /\ CompressionFormat.pandas_value c = None
          /\ CompressionFormat.suffix c = "").
Proof.
  destruct c; vm_compute; repeat split; intros; try discriminate; try tauto;
    try (intuition discriminate); try (intuition congruence).
Qed.

(** ** [SmartIo.get_encoding] and [SmartIo.get_encoding_errors] *)

Lemma remove_char_absent (s : string) (c : ascii) :
  PyStr.contains (PyStr.remove_char s c) c = false.
Proof.
  induction s as [| a s IH]; simpl; [reflexivity |].
  destruct (Ascii.eqb a c) eqn:E; [exact IH |].
  simpl. now rewrite E, IH.
Qed.

Lemma lower_char_idem (a : ascii) :
  PyStr.lower_char (PyStr.lower_char a) = PyStr.lower_char a.
Proof.
  destruct a as [[] [] [] [] [] [] [] []]; reflexivity.
Qed.

Lemma lower_char_hyphen (a : ascii) :
  Ascii.eqb (PyStr.lower_char a) "-" = Ascii.eqb a "-".
Proof.
  destruct a as [[] [] [] [] [] [] [] []]; reflexivity.
Qed.

Lemma lower_idem (s : string) : PyStr.lower (PyStr.lower s) = PyStr.lower s.
Proof.
  induction s as [| a s IH]; simpl; [reflexivity |].
  now rewrite lower_char_idem, IH.
Qed.

Lemma lower_remove_hyphen (s : string) :
  PyStr.lower (PyStr.remove_char s "-") = PyStr.remove_char (PyStr.lower s) "-".
Proof.
  induction s as [| a s IH]; simpl; [reflexivity |].
  rewrite lower_char_hyphen. destruct (Ascii.eqb a "-"); [exact IH |].
  simpl. now rewrite IH.
Qed.

(** X8.  [get_encoding] on the shorthands, in any spelling of case and
    hyphens: the three [(bom)] names give the [-sig] encoding on Windows
    and the plain encoding elsewhere, and [platform] gives the default
    encoding when that is not itself a [(bom)] shorthand. *)
Theorem get_encoding_shorthands (os_name default_encoding encoding : string) :
  let n := PyStr.remove_char (PyStr.lower encoding) "-" in
  (n = "utf8(bom)" ->
   SmartIo.get_encoding os_name default_encoding encoding
   = if String.eqb os_name "nt" then "utf-8-sig" else "utf-8")
  /\ (n = "utf16(bom)" ->
      SmartIo.get_encoding os_name default_encoding encoding
      = if String.eqb os_name "nt" then "utf-16-sig" else "utf-16")
  /\ (n = "utf32(bom)" ->
      SmartIo.get_encoding os_name default_encoding encoding
      = if String.eqb os_name "nt" then "utf-32-sig" else "utf-32")
  /\ (n = "platform" ->
      default_encoding <> "utf8(bom)" -> default_encoding <> "utf16(bom)" ->
      default_encoding <> "utf32(bom)" ->
      SmartIo.get_encoding os_name default_encoding encoding = default_encoding).
Proof.
  intros n. unfold SmartIo.get_encoding. fold n.
  repeat split.
  - intros ->. destruct (String.eqb os_name "nt"); reflexivity.
  - intros ->. destruct (String.eqb os_name "nt"); reflexivity.
  - intros ->. destruct (String.eqb os_name "nt"); reflexivity.
  - intros -> H8 H16 H32. simpl.
    apply String.eqb_neq in H8, H16, H32. now rewrite H8, H16, H32.
Qed.

Lemma get_encoding_shorthands_witness :
  SmartIo.get_encoding "posix" "utf-8" "UTF-8(BOM)" = "utf-8"
  /\ SmartIo.get_encoding "nt" "utf-8" "Utf16(bom)" = "utf-16-sig"
  /\ SmartIo.get_encoding "posix" "utf-8" "Plat-Form" = "utf-8".
Proof.
  pose proof (get_encoding_shorthands "posix" "utf-8" "UTF-8(BOM)") as (H1 & _).
  pose proof (get_encoding_shorthands "nt" "utf-8" "Utf16(bom)") as (_ & H2 & _).
  pose proof (get_encoding_shorthands "posix" "utf-8" "Plat-Form") as (_ & _ & _ & H4).
  split; [| split].
  - apply H1. reflexivity.
  - apply H2. reflexivity.
  - apply H4; [reflexivity | discriminate ..].
Defined.

(** X9.  For any other name, [get_encoding] returns the name in lower
    case with its hyphens removed: the result holds no hyphen and no
    capital, and [get_encoding] returns it unchanged when given it again.
    A [(bom)] shorthand is not stable in that way: its result holds a
    hyphen, which a second call removes. *)
Theorem get_encoding_normal_form (os_name default_encoding encoding : string) :
  let n := PyStr.remove_char (PyStr.lower encoding) "-" in
  let r := SmartIo.get_encoding os_name default_encoding encoding in
  (n <> "platform" -> n <> "utf8(bom)" -> n <> "utf16(bom)" -> n <> "utf32(bom)" ->
   r = n
   /\ PyStr.contains r "-" = false
   /\ PyStr.lower r = r
   /\ SmartIo.get_encoding os_name default_encoding r = r)
  /\ (n = "utf8(bom)" \/ n = "utf16(bom)" \/ n = "utf32(bom)" ->
      PyStr.contains r "-" = true
      /\ SmartIo.get_encoding os_name default_encoding r <> r).
Proof.
  intros n r. split.
  - intros Hp H8 H16 H32.
    assert (Hr : r = n).
    { unfold r, SmartIo.get_encoding. fold n.
      apply String.eqb_neq in Hp, H8, H16, H32. now rewrite Hp, H8, H16, H32. }
    assert (Hlow : PyStr.lower n = n).
    { unfold n. now rewrite lower_remove_hyphen, lower_idem. }
    assert (Hrem : PyStr.remove_char n "-" = n).
    { unfold n. generalize (PyStr.lower encoding). intros s.
      induction s as [| a s IH]; simpl; [reflexivity |].
      destruct (Ascii.eqb a "-") eqn:E; [exact IH |].
      simpl. now rewrite E, IH. }
    rewrite Hr. repeat split.
    + apply remove_char_absent.
    + exact Hlow.
    + unfold SmartIo.get_encoding. rewrite Hlow, Hrem.
      apply String.eqb_neq in Hp, H8, H16, H32. now rewrite Hp, H8, H16, H32.
  - intros H.
    assert (Hr : r = "utf-8-sig" \/ r = "utf-8" \/ r = "utf-16-sig" \/ r = "utf-16"
                 \/ r = "utf-32-sig" \/ r = "utf-32").
    { unfold r, SmartIo.get_encoding. fold n.
      destruct H as [-> | [-> | ->]]; destruct (String.eqb os_name "nt"); simpl; tauto. }
    destruct Hr as [-> | [-> | [-> | [-> | [-> | ->]]]]];
      (split; [reflexivity | vm_compute; discriminate]).
Qed.

Lemma get_encoding_normal_form_witness :
  SmartIo.get_encoding "posix" "utf-8" "Latin-1" = "latin1"
  /\ SmartIo.get_encoding "posix" "utf-8" "latin1" = "latin1"
  /\ SmartIo.get_encoding "posix" "utf-8" (SmartIo.get_encoding "posix" "utf-8" "utf8(bom)")
     <> SmartIo.get_encoding "posix" "utf-8" "utf8(bom)".
Proof.
  pose proof (get_encoding_normal_form "posix" "utf-8" "Latin-1") as [H1 _].
  pose proof (get_encoding_normal_form "posix" "utf-8" "utf8(bom)") as [_ H2].
  destruct H1 as (Ha & _ & _ & Hb); try discriminate.
  destruct H2 as (_ & Hc); [left; reflexivity |].
  split; [exact Ha |]. split; [| exact Hc].
  rewrite Ha in Hb. exact Hb.
Defined.

(** X10.  [get_encoding_errors] gives ["strict"] for [None]; whatever it
    returns is one of the eight handler names and is returned again when
    passed back; every other string raises [ValueError]. *)
Theorem get_encoding_errors_valid :
  SmartIo.get_encoding_errors None = Ok "strict"
  /\ (forall (errors : option string) (r : string),
         SmartIo.get_encoding_errors errors = Ok r ->
         In r SmartIo.error_handlers
         /\ SmartIo.get_encoding_errors (Some r) = Ok r)
  /\ (forall e : string,
         ~ In e SmartIo.error_handlers ->
         SmartIo.get_encoding_errors (Some e)
         = Raise (ValueError ("Invalid value " ++ e ++ " for errors"))).
Proof.
  split; [reflexivity |]. split.
  - intros [e |] r H.
    + unfold SmartIo.get_encoding_errors in *.
      destruct (bool_decide (e ∈ SmartIo.error_handlers)) eqn:E; [| discriminate H].
      injection H as <-. rewrite E. split; [| reflexivity].
      apply bool_decide_eq_true in E. now apply list_elem_of_In.
    + injection H as <-. split; [| reflexivity]. simpl. tauto.
  - intros e He. unfold SmartIo.get_encoding_errors.
    rewrite bool_decide_eq_false_2; [reflexivity |].
    intros H. apply He. now apply list_elem_of_In.
Qed.

Lemma get_encoding_errors_valid_witness :
  In "replace" SmartIo.error_handlers
  /\ SmartIo.get_encoding_errors (Some "replace") = Ok "replace"
  /\ SmartIo.get_encoding_errors (Some "Strict")
     = Raise (ValueError "Invalid value Strict for errors").
Proof.
  pose proof get_encoding_errors_valid as (_ & H2 & H3).
  split; [| split].
  - apply (H2 (Some "replace") "replace"). reflexivity.
  - apply (H2 (Some "replace") "replace"). reflexivity.
  - apply (H3 "Strict"). vm_compute. intuition discriminate.
Defined.

(** ** The preflight checks *)

Lemma exists_lookup (p : Pathlib.PurePath) (st : OS.state) :
  OS.exists_ p st = match OS.files st !! p with Some _ => true | None => false end.
Proof.
  unfold OS.exists_. destruct (OS.files st !! p) as [n |].
  - apply bool_decide_eq_true_2. now exists n.
  - apply bool_decide_eq_false_2. intros [n Hn]. discriminate Hn.
Qed.








Lemma set_files_same (st : OS.state) (p : Pathlib.PurePath) (n : OS.node) :
  OS.files st !! p = Some n -> OS.set_files st (<[p := n]> (OS.files st)) = st.
Proof.
  intros H. unfold OS.set_files. rewrite (insert_id _ _ _ H). now destruct st.
Qed.

(** The three ways in which the check of one path for writing goes on or
    stops. *)
Lemma verify_can_write_files_step (p : Pathlib.PathLike) (rest : list Pathlib.PathLike)
  (missing_ok attempt : bool) (st : OS.state) :
  (* an existing writable file: nothing changes *)
  ((exists r d, OS.files st !! Pathlib.Path p = Some (OS.File r true d))
   /\ SmartIo.verify_can_write_files (p :: rest) missing_ok attempt st
      = SmartIo.verify_can_write_files rest missing_ok attempt st)
  (* a missing file under [missing_ok]: created by the attempt *)
  \/ (OS.files st !! Pathlib.Path p = None /\ missing_ok = true
      /\ SmartIo.verify_can_write_files (p :: rest) missing_ok attempt st
         = SmartIo.verify_can_write_files rest missing_ok attempt
             (if attempt
              then OS.set_files st
                     (<[Pathlib.Path p := OS.File true true ""]> (OS.files st))
              else st))
  (* anything else: refused *)
  \/ (exists msg,
         SmartIo.verify_can_write_files (p :: rest) missing_ok attempt st
         = (Raise (WritePermissionsError msg (Pathlib.str (Pathlib.Path p))), st)).
Proof.
  simpl. rewrite exists_lookup. unfold OS.is_file, OS.access_W, OS.open_write.
  destruct (OS.files st !! Pathlib.Path p) as [[| r w d] |] eqn:E; simpl.
  - right. right. eexists. reflexivity.
  - destruct w.
    + left. split; [eauto |]. rewrite orb_true_r. simpl.
      destruct attempt; [| reflexivity].
      now rewrite (set_files_same st _ _ E).
    + right. right. rewrite orb_true_r. simpl. eexists. reflexivity.
  - destruct missing_ok; simpl.
    + right. left. repeat split. now destruct attempt.
    + right. right. eexists. reflexivity.
Qed.

(** X13.  [verify_can_write_files] never alters a node that exists and,
    without [attempt], changes nothing at all; with [attempt], when it
    returns without raising, every path it was given is a writable
    regular file afterwards: the missing ones have been created, empty. *)
Theorem verify_can_write_files_effect
  (paths : list Pathlib.PathLike) (missing_ok attempt : bool)
  (st st' : OS.state) (r : result unit) :
  SmartIo.verify_can_write_files paths missing_ok attempt st = (r, st') ->
  (forall q n, OS.files st !! q = Some n -> OS.files st' !! q = Some n)
  /\ (attempt = false -> st' = st)
  /\ (r = Ok tt -> attempt = true ->
      Forall (fun p => exists rd d,
                  OS.files st' !! Pathlib.Path p = Some (OS.File rd true d)) paths
      /\ forall p, In p paths -> OS.files st !! Pathlib.Path p = None ->
                   OS.files st' !! Pathlib.Path p = Some (OS.File true true "")).
Proof.
  revert st. induction paths as [| p rest IH]; intros st H.
  - injection H as <- <-. repeat split; auto. intros p [].
  - destruct (verify_can_write_files_step p rest missing_ok attempt st)
      as [[(rd & d & Hf) E] | [(Hf & Hm & E) | [msg E]]]; rewrite E in H.
    + destruct (IH st H) as (Hmono & Hsame & Hok).
      split; [exact Hmono |]. split; [exact Hsame |].
      intros Hr Ha. destruct (Hok Hr Ha) as [Hall Hnew]. split.
      * constructor; [| exact Hall]. exists rd, d. now apply Hmono.
      * intros q [<- | Hq] Hnone; [congruence | now apply Hnew].
    + destruct attempt.
      * destruct (IH _ H) as (Hmono & _ & Hok).
        assert (Hp : OS.files st' !! Pathlib.Path p = Some (OS.File true true "")).
        { apply Hmono. simpl. apply lookup_insert_eq. }
        split; [| split; [discriminate |]].
        -- intros q n Hq. apply Hmono. simpl.
           rewrite lookup_insert_ne; [exact Hq |]. intros <-. congruence.
        -- intros Hr _. destruct (Hok Hr eq_refl) as [Hall Hnew]. split.
           ++ constructor; [eauto | exact Hall].
           ++ intros q [<- | Hq] Hnone; [exact Hp |].
              destruct (decide (Pathlib.Path q = Pathlib.Path p)) as [Eq | Ne].
              ** now rewrite Eq.
              ** apply Hnew; [exact Hq |]. simpl. now rewrite lookup_insert_ne.
      * destruct (IH _ H) as (Hmono & Hsame & _).
        split; [exact Hmono |]. split; [exact Hsame | discriminate].
    + injection H as <- <-. repeat split; auto; discriminate.
Qed.

Lemma verify_can_write_files_effect_witness :
  OS.files (snd (SmartIo.verify_can_write_files
                   [Pathlib.PStr "data.csv.gz"; Pathlib.PStr "new.txt"] true true
                   almost_full))
    !! Pathlib.parse "new.txt" = Some (OS.File true true "")
  /\ OS.files (snd (SmartIo.verify_can_write_files
                      [Pathlib.PStr "data.csv.gz"; Pathlib.PStr "new.txt"] true true
                      almost_full))
       !! Pathlib.parse "data.csv.gz" = Some (OS.File true true "gz:old").
Proof.
  destruct (verify_can_write_files_effect
              [Pathlib.PStr "data.csv.gz"; Pathlib.PStr "new.txt"] true true
              almost_full
              (snd (SmartIo.verify_can_write_files
                      [Pathlib.PStr "data.csv.gz"; Pathlib.PStr "new.txt"] true true
                      almost_full))
              (Ok tt)) as (Hmono & _ & Hok).
  - vm_compute. reflexivity.
  - destruct (Hok eq_refl eq_refl) as [_ Hnew]. split.
    + apply (Hnew (Pathlib.PStr "new.txt")); [simpl; tauto | reflexivity].
    + apply Hmono. reflexivity.
Defined.



(** ** More on [SmartIo.write] and [SmartIo.read] *)

(** X15.  How the scheme is chosen: a format passed as [compression=] is
    taken as it is, whatever the path; without [compression=] a path
    gives [from_path] of it and any other target gives [none]; and the
    only way to fail is a [compression=] string that [of] does not know,
    with the [KeyError] of the failed lookup. *)
Theorem path_or_buff_compression_resolution
  (order : list CompressionFormat.t) (pb : SmartIo.path_or_buff) (kw : SmartIo.kwargs) :
  (forall c, SmartIo.kw_compression kw = Some (CompressionFormat.OfFormat c) ->
             SmartIo.path_or_buff_compression order pb kw = Ok c)
  /\ (SmartIo.kw_compression kw = None ->
      SmartIo.path_or_buff_compression order pb kw
      = Ok (match pb with
            | SmartIo.PPath p => CompressionFormat.from_path p
            | _ => none
            end))
  /\ (forall e, SmartIo.path_or_buff_compression order pb kw = Raise e ->
                exists s,
                  SmartIo.kw_compression kw = Some (CompressionFormat.OfStr s)
                  /\ e = KeyError (PyStr.lower (PyStr.strip s))).
Proof.
  unfold SmartIo.path_or_buff_compression. repeat split.
  - intros c ->. reflexivity.
  - intros ->. now destruct pb.
  - intros e. destruct (SmartIo.kw_compression kw) as [[s | c] |].
    + intros H. exists s. split; [reflexivity |].
      unfold CompressionFormat.of_, CompressionFormat.getitem in H.
      destruct (find _ CompressionFormat.members); [discriminate H |].
      destruct (find _ order); [discriminate H |].
      now injection H as <-.
    + discriminate.
    + destruct pb; discriminate.
Qed.

Lemma path_or_buff_compression_resolution_witness :
  SmartIo.path_or_buff_compression CompressionFormat.list_
    (SmartIo.PPath (Pathlib.PStr "data.csv.gz"))
    (SmartIo.mkKwargs (Some (CompressionFormat.OfFormat xz))) = Ok xz
  /\ SmartIo.path_or_buff_compression CompressionFormat.list_
       (SmartIo.PBuffer 0) SmartIo.no_kwargs = Ok none
  /\ exists s,
       Some (CompressionFormat.OfStr "7z") = Some (CompressionFormat.OfStr s)
       /\ KeyError "7z" = KeyError (PyStr.lower (PyStr.strip s)).
Proof.
  split; [| split].
  - apply (proj1 (path_or_buff_compression_resolution CompressionFormat.list_
                    (SmartIo.PPath (Pathlib.PStr "data.csv.gz"))
                    (SmartIo.mkKwargs (Some (CompressionFormat.OfFormat xz))))).
    reflexivity.
  - apply (proj1 (proj2 (path_or_buff_compression_resolution CompressionFormat.list_
                           (SmartIo.PBuffer 0) SmartIo.no_kwargs))).
    reflexivity.
  - apply (proj2 (proj2 (path_or_buff_compression_resolution CompressionFormat.list_
                           (SmartIo.PPath (Pathlib.PStr "data.csv"))
                           (SmartIo.mkKwargs (Some (CompressionFormat.OfStr "7z")))))).
    reflexivity.
Defined.

Lemma bind_ok_inv {A B : Type} (m : OS.io A) (k : A -> OS.io B)
  (st st' : OS.state) (b : B) :
  OS.bind m k st = (Ok b, st') ->
  exists a st1, m st = (Ok a, st1) /\ k a st1 = (Ok b, st').
Proof.
  unfold OS.bind. destruct (m st) as [[a | e] st1]; [eauto | discriminate].
Qed.

Lemma with_close_ok_inv {A : Type} (body : OS.io A) (st st' : OS.state) (a : A) :
  OS.with_close body st = (Ok a, st') -> exists st1, body st = (Ok a, st1).
Proof.
  unfold OS.with_close. destruct (body st) as [r st1].
  destruct (OS.close st1) as [[[] | e] st2]; [| discriminate].
  intros H. injection H as -> _. eauto.
Qed.

Lemma write_body_returns_None {A : Type} (m : OS.io A) (st st' : OS.state)
  (x : option string) :
  OS.with_close (OS.bind m (fun _ => OS.ret None)) st = (Ok x, st') -> x = None.
Proof.
  intros H. apply with_close_ok_inv in H as [st1 H].
  apply bind_ok_inv in H as (a & st2 & _ & H). now injection H as <-.
Qed.

(** X16.  What [write] returns: the content itself, with nothing
    changed, when the target is [None]; and [None] whenever it returns
    for any other target. *)
Theorem write_return_value
  (rt : runtime) (order : list CompressionFormat.t) (pb : SmartIo.path_or_buff)
  (content mode : string) (atomic : bool) (kw : SmartIo.kwargs) (st : OS.state) :
  (pb = SmartIo.PNone ->
   SmartIo.write rt order pb content mode atomic kw st = (Ok (Some content), st))
  /\ (pb <> SmartIo.PNone ->
      forall x st',
        SmartIo.write rt order pb content mode atomic kw st = (Ok x, st') ->
        x = None).
Proof.
  split; [intros ->; reflexivity |].
  intros Hpb x st' H.
  assert (Hw : OS.bind (OS.lift (SmartIo.path_or_buff_compression order pb kw))
                 (fun compression =>
                    if decide (compression = lz4) then
                      if PyStr.contains mode "a" then
                        OS.raise (UnsupportedOperationError "Can't append to lz4 (yet)")
                      else
                        OS.bind (OS.lift (SmartIo.as_Path pb)) (fun path =>
                        OS.bind (SmartIo.tmp_path rt (Pathlib.PPure path) "tmp") (fun tmp =>
                        OS.bind (match SmartIo.kw_compression kw with
                                 | Some _ => OS.raise (ValueError "Unrecognized compression type")
                                 | None => SmartIo.get_handle_w
                                             (SmartIo.PPath (Pathlib.PPure tmp)) mode None
                                 end) (fun f =>
                        OS.bind (OS.with_close (SmartIo.handle_write rt f content)) (fun _ =>
                        if atomic then
                          OS.bind (SmartIo.tmp_path rt (Pathlib.PPure path) "tmp") (fun tmp0 =>
                          OS.bind (SmartIo.lz4_write_nothing rt tmp0) (fun _ =>
                          OS.bind (OS.replace tmp0 path) (fun _ => OS.ret None)))
                        else
                          OS.bind (SmartIo.lz4_write_nothing rt path)
                            (fun _ => OS.ret None)))))
                    else
                      match pb with
                      | SmartIo.PPath p =>
                          if atomic then
                            if PyStr.contains mode "a" then
                              OS.raise (UnsupportedOperationError
                                          "Can't append in atomic write")
                            else
                              OS.bind (SmartIo.tmp_path rt
                                         (Pathlib.PPure (Pathlib.Path p)) "tmp") (fun tmp =>
                              OS.bind (SmartIo.get_handle_w
                                         (SmartIo.PPath (Pathlib.PPure tmp)) mode
                                         (CompressionFormat.pandas_value compression))
                                (fun f =>
                              OS.with_close
                                (OS.bind (SmartIo.handle_write rt f content) (fun _ =>
                                 OS.bind (OS.replace tmp (Pathlib.Path p))
                                   (fun _ => OS.ret None)))))
                          else
                            OS.bind (SmartIo.get_handle_w pb mode
                                       (CompressionFormat.pandas_value compression))
                              (fun f =>
                            OS.with_close
                              (OS.bind (SmartIo.handle_write rt f content)
                                 (fun _ => OS.ret None)))
                      | _ =>
                          OS.bind (SmartIo.get_handle_w pb mode
                                     (CompressionFormat.pandas_value compression))
                            (fun f =>
                          OS.with_close
                            (OS.bind (SmartIo.handle_write rt f content)
                               (fun _ => OS.ret None)))
                      end) st = (Ok x, st')).
  { destruct pb; [now elim Hpb | exact H ..]. }
  clear H. apply bind_ok_inv in Hw as (c & st1 & _ & H).
  destruct (decide (c = lz4)) as [Hc | Hc].
  - destruct (PyStr.contains mode "a"); [discriminate H |].
    apply bind_ok_inv in H as (path & st2 & _ & H).
    apply bind_ok_inv in H as (tmp & st3 & _ & H).
    apply bind_ok_inv in H as (f & st4 & _ & H).
    apply bind_ok_inv in H as ([] & st5 & _ & H).
    destruct atomic.
    + apply bind_ok_inv in H as (tmp0 & st6 & _ & H).
      apply bind_ok_inv in H as ([] & st7 & Hl & _).
      destruct (lz4_write_nothing_raises _ _ _ _ _ Hl) as [e He]. discriminate He.
    + apply bind_ok_inv in H as ([] & st6 & Hl & _).
      destruct (lz4_write_nothing_raises _ _ _ _ _ Hl) as [e He]. discriminate He.
  - assert (Hplain : forall q : SmartIo.path_or_buff,
               OS.bind (SmartIo.get_handle_w q mode (CompressionFormat.pandas_value c))
                 (fun f => OS.with_close
                             (OS.bind (SmartIo.handle_write rt f content)
                                (fun _ => OS.ret None))) st1 = (Ok x, st') ->
               x = None).
    { intros q Hq. apply bind_ok_inv in Hq as (f & st2 & _ & Hq).
      exact (write_body_returns_None _ _ _ _ Hq). }
    destruct pb as [| p | id | b]; [now elim Hpb | | exact (Hplain _ H) ..].
    destruct atomic; [| exact (Hplain _ H)].
    destruct (PyStr.contains mode "a"); [discriminate H |].
    apply bind_ok_inv in H as (tmp & st2 & _ & H).
    apply bind_ok_inv in H as (f & st3 & _ & H).
    apply with_close_ok_inv in H as [st4 H].
    apply bind_ok_inv in H as ([] & st5 & _ & H).
    apply bind_ok_inv in H as ([] & st6 & _ & H).
    now injection H as <-.
Qed.

Lemma write_return_value_witness :
  SmartIo.write cpython_tagging CompressionFormat.list_ SmartIo.PNone "text" "a" true
    (SmartIo.mkKwargs (Some (CompressionFormat.OfStr "7z"))) almost_full
  = (Ok (Some "text"), almost_full)
  /\ fst (SmartIo.write cpython_tagging CompressionFormat.list_
            (SmartIo.PPath (Pathlib.PStr "notes.txt")) "text" "w" false
            SmartIo.no_kwargs empty_state) = Ok None.
Proof.
  split.
  - apply (proj1 (write_return_value cpython_tagging CompressionFormat.list_
                    SmartIo.PNone "text" "a" true
                    (SmartIo.mkKwargs (Some (CompressionFormat.OfStr "7z"))) almost_full)).
    reflexivity.
  - destruct (SmartIo.write cpython_tagging CompressionFormat.list_
                (SmartIo.PPath (Pathlib.PStr "notes.txt")) "text" "w" false
                SmartIo.no_kwargs empty_state) as [[x | e] st'] eqn:E.
    + simpl. f_equal.
      apply (proj2 (write_return_value cpython_tagging CompressionFormat.list_
                      (SmartIo.PPath (Pathlib.PStr "notes.txt")) "text" "w" false
                      SmartIo.no_kwargs empty_state) ltac:(discriminate) x st' E).
    + vm_compute in E. discriminate E.
Defined.



Lemma read_file_state (p : Pathlib.PurePath) (st st' : OS.state) (r : result string) :
  OS.read_file p st = (r, st') -> st' = st.
Proof.
  unfold OS.read_file.
  destruct (OS.files st !! p) as [[| rd wr d] |]; [| destruct rd |];
    intros H; now injection H as _ <-.
Qed.

Lemma get_handle_read_state (rt : runtime) (pb : SmartIo.path_or_buff)
  (compression : option string) (st st' : OS.state) (r : result string) :
  SmartIo.get_handle_read rt pb compression st = (r, st') -> st' = st.
Proof.
  unfold SmartIo.get_handle_read, OS.bind, OS.lift, OS.raise.
  destruct (SmartIo.pandas_scheme compression) as [c | e];
    [| intros H; now injection H as _ <-].
  destruct pb as [| p | id | b]; try (intros H; now injection H as _ <-).
  destruct (OS.read_file (Pathlib.Path p) st) as [[d | e] st1] eqn:E;
    apply read_file_state in E; subst st1; intros H; now injection H as _ <-.
Qed.

Lemma read_state (rt : runtime) (order : list CompressionFormat.t)
  (pb : SmartIo.path_or_buff) (mode : string) (kw : SmartIo.kwargs)
  (st st' : OS.state) (r : result string) :
  SmartIo.read rt order pb mode kw st = (r, st') -> st' = st.
Proof.
  unfold SmartIo.read, OS.bind at 1, OS.lift.
  destruct (SmartIo.path_or_buff_compression order pb kw) as [c | e];
    [| intros H; now injection H as _ <-].
  destruct (decide (c = lz4)) as [Hc | Hc];
    [| apply get_handle_read_state].
  unfold OS.bind at 1.
  destruct (SmartIo.as_Path pb) as [path | e]; [| intros H; now injection H as _ <-].
  unfold OS.bind at 1.
  destruct (if lz4_frame rt then OS.read_file path
            else OS.raise (AttributeError "'NoneType' object has no attribute 'open'"))
    as [raw st1] eqn:E.
  assert (st1 = st) as ->.
  { destruct (lz4_frame rt); [exact (read_file_state _ _ _ _ E) |].
    now injection E as _ <-. }
  destruct raw as [raw | e]; [| intros H; now injection H as _ <-].
  unfold OS.bind, OS.lift.
  destruct (lz4_decode rt raw) as [b | e]; [| intros H; now injection H as _ <-].
  destruct (SmartIo.kw_compression kw);
    [intros H; now injection H as _ <- | apply get_handle_read_state].
Qed.

(** X19.  A read of a path with the lz4 suffix raises in every run time
    and every state, whatever the file holds: the decompressed bytes are
    handed to [get_handle] in place of a file, and a [bytes] object
    cannot be read from. *)
Theorem read_lz4_always_raises
  (rt : runtime) (order : list CompressionFormat.t) (p : Pathlib.PathLike)
  (mode : string) (st : OS.state) :
  CompressionFormat.from_path p = lz4 ->
  exists e,
    SmartIo.read rt order (SmartIo.PPath p) mode SmartIo.no_kwargs st = (Raise e, st).
Proof.
  intros Hlz.
  destruct (SmartIo.read rt order (SmartIo.PPath p) mode SmartIo.no_kwargs st)
    as [[x | e] st'] eqn:E.
  - exfalso. revert E.
    unfold SmartIo.read, OS.bind at 1, OS.lift. rewrite compression_of_path, Hlz.
    destruct (decide (lz4 = lz4)) as [_ | N]; [| now elim N].
    intros E.
    apply bind_ok_inv in E as (path & st1 & _ & E).
    apply bind_ok_inv in E as (raw & st2 & _ & E).
    apply bind_ok_inv in E as (b & st3 & _ & E).
    discriminate E.
  - apply read_state in E as ->. eauto.
Qed.

Lemma read_lz4_always_raises_witness :
  exists e,
    SmartIo.read ns_tagging CompressionFormat.list_
      (SmartIo.PPath (Pathlib.PStr "data.txt.lz4")) "r" SmartIo.no_kwargs empty_state
    = (Raise e, empty_state).
Proof.
  apply (read_lz4_always_raises ns_tagging CompressionFormat.list_
           (Pathlib.PStr "data.txt.lz4") "r" empty_state).
  reflexivity.
Defined.



(** ** Plain writes on a path *)











(** An atomic write of a gzip file under CPython, on a device with room
    to spare. *)
Lemma write_stops_at_tmp_path_under_cpython_witness :
  SmartIo.write cpython_tagging CompressionFormat.list_
    (SmartIo.PPath (Pathlib.PStr "data.csv.gz")) "hello" "w" true
    SmartIo.no_kwargs nearly_full
  = (Raise (ValueError "Unknown timespec value"), nearly_full).
Proof.
  apply (write_stops_at_tmp_path_under_cpython true tag_encode tag_decode
           (tag_decode lz4) (tag_encode lz4 "") (8 * 1024)
           CompressionFormat.list_ (Pathlib.PStr "data.csv.gz") "hello" "w" true
           SmartIo.no_kwargs nearly_full gz).
  - reflexivity.
  - reflexivity.
  - right. reflexivity.
Defined.

(** ** The preflight check of directories *)





